(** * vectorcache-js: the request dispatcher and its error taxonomy

    A shallow embedding of [src/errors.ts] and [src/client.ts].

    - JavaScript values that flow through the code ([any] bodies,
      optional fields, [a || b] chains, string conversion, [parseInt])
      come first.
    - [errors.ts] becomes a record of the fields every error instance
      carries, one constructor function per class, and the factory
      [createErrorFromResponse]. A constructor converts its message to
      a string, as the [Error] base class does, and throws when that
      conversion throws.
    - [client.ts] is written in a small monad [M] that threads what
      the client does to the outside world (log lines, [fetch] calls,
      the abort timer, a virtual clock) and carries thrown values, so
      that [try]/[catch] reads as in the source.

    What the platform does is an input: [fetch] is a function from
    the call to the promise it returns, a promise being the delay
    after which it settles and what it settles with; [JSON.parse],
    [JSON.stringify], [encodeURIComponent] and the printing of numbers
    are functions of a [World], the first three of which may throw.
    Strings are byte strings. *)

From Stdlib Require Import ZArith List String Ascii Bool Lia.
From Stdlib Require Import DecimalString DecimalPos.
Import ListNotations.

#[local] Set Warnings "-register-all".

Open Scope string_scope.
Open Scope Z_scope.

(* ================================================================== *)
(** ** JavaScript values *)
(* ================================================================== *)

(** The values that flow through the client: what [JSON.parse] can
    return, and what a request body can hold, a [BigInt] included
    (which [JSON.stringify] refuses). [JNum z] is the Number whose
    value is the integer [z]; an object is the list of its own
    properties, in property order. [undefined] is [None] at type
    [option json]; [null] is [JNull]. *)
Inductive json : Type :=
| JNull
| JBool (b : bool)
| JNum (z : Z)
| JBigInt (z : Z)
| JStr (s : string)
| JArr (items : list json)
| JObj (fields : list (string * json)).

(** ToBoolean. *)
Class Truthy (A : Type) := truthy : A -> bool.

#[global] Instance Truthy_string : Truthy string :=
  fun s => match s with EmptyString => false | String _ _ => true end.

#[global] Instance Truthy_Z : Truthy Z :=
  fun z => negb (z =? 0).

#[global] Instance Truthy_json : Truthy json :=
  fun v =>
    match v with
    | JNull => false
    | JBool b => b
    | JNum z => truthy z
    | JBigInt z => truthy z
    | JStr s => truthy s
    | JArr _ => true
    | JObj _ => true
    end.

#[global] Instance Truthy_option {A} `{Truthy A} : Truthy (option A) :=
  fun o => match o with Some a => truthy a | None => false end.

(** [a || b]: the left operand when it is truthy, else the right one
    (whatever it is). *)
Definition jsor {A} `{Truthy A} (a b : option A) : option A :=
  if truthy a then a else b.

(** [a || d] where [d] is a value that is always there. *)
Definition or_default {A} `{Truthy A} (a : option A) (d : A) : A :=
  match a with
  | Some v => if truthy v then v else d
  | None => d
  end.

Infix "|||" := jsor (at level 50, left associativity).

(** [o?.f] on an optional record. *)
Definition opt_field {R A} (o : option R) (f : R -> option A) : option A :=
  match o with Some r => f r | None => None end.

Fixpoint assoc (k : string) (fields : list (string * json)) : option json :=
  match fields with
  | [] => None
  | (k', v) :: rest => if String.eqb k k' then Some v else assoc k rest
  end.

(** [v?.k] on an [any]: [undefined] for [undefined] and [null]; an own
    property of an object; [undefined] on every other value, whose
    prototypes have neither a [message] nor a [detail]. *)
Definition get_prop (v : option json) (k : string) : option json :=
  match v with
  | Some (JObj fields) => assoc k fields
  | _ => None
  end.

(** A template literal prints [undefined] for a missing string. *)
Definition template (o : option string) : string :=
  match o with Some s => s | None => "undefined" end.

(** The decimal numeral of an integer. *)
Definition numeral (z : Z) : string :=
  NilZero.string_of_int (Z.to_int z).

(** The Number values [parseInt] returns. [Fin z] is the Number whose
    value is the integer [z]. *)
Inductive Number : Type :=
| NaN
| Infinity (negative : bool)
| NegZero
| Fin (z : Z).

(** The Number for a non-zero integer: the integer itself up to 2^53
    in magnitude; beyond, the nearest integer that has 53 significant
    bits (ties to the even one), and an infinity from 2^1024 on. *)
Definition to_double (z : Z) : Number :=
  let a := Z.abs z in
  if a <=? 2 ^ 53 then Fin z
  else
    let e := Z.log2 a - 52 in
    let q := a / 2 ^ e in
    let r := a mod 2 ^ e in
    let half := 2 ^ (e - 1) in
    let q' := if (half <? r) || ((r =? half) && Z.odd q) then q + 1 else q in
    let m := q' * 2 ^ e in
    if 2 ^ 1024 <=? m then Infinity (z <? 0)
    else Fin (if z <? 0 then - m else m).

(** StrWhiteSpaceChar among the code units 0..255: TAB, LF, VT, FF, CR,
    SP and NBSP. *)
Definition is_StrWhiteSpaceChar (c : ascii) : bool :=
  existsb (N.eqb (N_of_ascii c)) [9; 10; 11; 12; 13; 32; 160]%N.

Fixpoint trim_start (s : string) : string :=
  match s with
  | EmptyString => EmptyString
  | String c rest => if is_StrWhiteSpaceChar c then trim_start rest else s
  end.

(** The value of a digit or letter as a radix digit. *)
Definition digit_value (c : ascii) : option Z :=
  let n := Z.of_N (N_of_ascii c) in
  if (48 <=? n) && (n <=? 57) then Some (n - 48)
  else if (97 <=? n) && (n <=? 122) then Some (n - 87)
  else if (65 <=? n) && (n <=? 90) then Some (n - 55)
  else None.

(** The longest prefix of radix-[R] digits, read left to right;
    [None] when that prefix is empty. *)
Fixpoint read_digits (R : Z) (s : string) (acc : option Z) : option Z :=
  match s with
  | EmptyString => acc
  | String c rest =>
      match digit_value c with
      | Some d =>
          if d <? R
          then read_digits R rest
                 (Some (R * match acc with Some a => a | None => 0 end + d))
          else acc
      | None => acc
      end
  end.

Definition strip_sign (s : string) : bool * string :=
  match s with
  | String "-"%char rest => (true, rest)
  | String "+"%char rest => (false, rest)
  | _ => (false, s)
  end.

Definition strip_0x (s : string) : option string :=
  match s with
  | String "0"%char (String "x"%char rest) => Some rest
  | String "0"%char (String "X"%char rest) => Some rest
  | _ => None
  end.

(** [parseInt(string, radix)], step by step as the language defines it:
    leading white space is dropped, then an optional sign, then (radix
    0 or 16 only) an optional [0x]; the longest run of digits is the
    value, as a Number; no digit at all is [NaN]. The Number is the
    nearest one to the integer the digits denote, which is what the
    language requires up to 20 significant digits and what Node.js
    does beyond. *)
Definition parseInt (s : string) (radix : Z) : Number :=
  let '(neg, body) := strip_sign (trim_start s) in
  if negb (radix =? 0) && ((radix <? 2) || (36 <? radix)) then NaN
  else
    let stripPrefix := (radix =? 0) || (radix =? 16) in
    let R0 := if radix =? 0 then 10 else radix in
    let '(R, digits) :=
      match (if stripPrefix then strip_0x body else None) with
      | Some rest => (16, rest)
      | None => (R0, body)
      end in
    match read_digits R digits None with
    | None => NaN
    | Some m =>
        if m =? 0 then (if neg then NegZero else Fin 0)
        else to_double (if neg then - m else m)
    end.

(* ================================================================== *)
(** ** errors.ts: what an error instance carries *)
(* ================================================================== *)

(** The class an error instance was built by (what [instanceof] and the
    spec's "variant" observe). Every class extends the first one. *)
Inductive ErrorClass : Type :=
| APIError
| AuthenticationError
| RateLimitError
| ValidationError
| NetworkError
| TimeoutError
| ServerError.

(** The fields of an instance. [message] is the string the [Error]
    base class made of the constructor's argument. [retryAfter] exists
    on rate-limit errors only and is [None] elsewhere. *)
Record VectorcacheError : Type := {
  kind : ErrorClass;
  name : string;
  message : string;
  status : option Z;
  code : option string;
  details : option json;
  retryAfter : option Number
}.

(* ================================================================== *)
(** ** The platform: thrown values, promises, responses, built-ins *)
(* ================================================================== *)

(** What a [catch] clause can receive: an instance of the SDK's error
    classes, any other [Error] (its [name] and [message]), or a value
    that is no [Error] at all. *)
Inductive Thrown : Type :=
| ThrowAPI (e : VectorcacheError)
| ThrowError (name message : string)
| ThrowOther (v : option json).

(** How a call ends: with a value, or by throwing. *)
Inductive Outcome (A : Type) : Type :=
| Returned (a : A)
| Threw (t : Thrown).
Arguments Returned {A} a.
Arguments Threw {A} t.

Definition and_then {A B} (o : Outcome A) (k : A -> Outcome B) : Outcome B :=
  match o with
  | Returned a => k a
  | Threw t => Threw t
  end.

Inductive Settled (A : Type) : Type :=
| Fulfilled (a : A)
| Rejected (t : Thrown).
Arguments Fulfilled {A} a.
Arguments Rejected {A} t.

(** A platform promise: left alone, it settles [settles_after]
    milliseconds after it was started, with [settlement]. *)
Record Promise (A : Type) : Type := {
  settles_after : Z;
  settlement : Settled A
}.
Arguments settles_after {A} p.
Arguments settlement {A} p.

Module Response.
(** The parts of a fetch [Response] the SDK reads; [headers] is its
    [headers.get] and [text] the promise [text()] returns. *)
Record t : Type := {
  ok : bool;
  status : Z;
  statusText : string;
  headers : string -> option string;
  text : Promise string
}.
End Response.

Inductive Method : Type := GET | POST | PUT | DELETE.

Definition Method_toString (m : Method) : string :=
  match m with
  | GET => "GET" | POST => "POST" | PUT => "PUT" | DELETE => "DELETE"
  end.

(** The arguments of one [fetch(url, init)] call (the abort signal is
    the timer of the run state below). *)
Record FetchCall : Type := {
  url : string;
  method : Method;
  req_headers : list (string * string);
  req_body : option string
}.

(** The built-ins the client calls. [JSON_parse] is [None] where
    [JSON.parse] throws a [SyntaxError]; [JSON_stringify] and
    [encodeURIComponent] return a string or throw (a [TypeError] for a
    [BigInt] or a cycle, a [URIError] for a lone surrogate);
    [large_Number_toString] is what the platform prints for a Number
    beyond 2^53 (the shortest digits that read back as the same
    Number, in exponent notation from 10^21 on), which is not modelled
    further. *)
Record World : Type := {
  fetch : FetchCall -> Promise Response.t;
  JSON_parse : string -> option json;
  JSON_stringify : json -> Outcome string;
  encodeURIComponent : string -> Outcome string;
  large_Number_toString : Z -> string
}.

(** How a Number is printed in a template literal or a string
    conversion: an integer up to 2^53 as its decimal numeral. *)
Definition Number_toString (w : World) (z : Z) : string :=
  if Z.abs z <=? 2 ^ 53 then numeral z else large_Number_toString w z.

(** What converting an object to a string throws when the object
    offers no usable [toString]. *)
Definition cannot_convert : Thrown :=
  ThrowError "TypeError" "Cannot convert object to primitive value".

(** ToString. A string is itself; [null], booleans and numbers are
    printed; an array is its elements joined by commas, [null]
    elements left empty; an object is [[object Object]], unless it has
    an own property [toString], which hides the inherited method: such
    a property of a parsed object is never a function, and the
    conversion throws. *)
Fixpoint ToString (w : World) (v : json) : Outcome string :=
  match v with
  | JNull => Returned "null"
  | JBool b => Returned (if b then "true" else "false")
  | JNum z => Returned (Number_toString w z)
  | JBigInt z => Returned (numeral z)
  | JStr s => Returned s
  | JArr items =>
      (fix join (l : list json) : Outcome string :=
         match l with
         | [] => Returned ""
         | x :: rest =>
             and_then
               (match x with JNull => Returned "" | _ => ToString w x end)
               (fun first =>
                  match rest with
                  | [] => Returned first
                  | _ :: _ =>
                      and_then (join rest)
                        (fun others => Returned (first ++ "," ++ others))
                  end)
         end) items
  | JObj fields =>
      match assoc "toString" fields with
      | Some _ => Threw cannot_convert
      | None => Returned "[object Object]"
      end
  end.

(* ================================================================== *)
(** ** errors.ts: the classes and the factory *)
(* ================================================================== *)

(** A default parameter value applies when the argument is [undefined]. *)
Definition default_param {A} (arg : option A) (d : A) : A :=
  match arg with Some a => a | None => d end.

(** What a subclass constructor does after [super(...)]: it sets the
    name (and the instance is of that class). *)
Definition subclass (base : VectorcacheError) (k : ErrorClass) (n : string)
  : VectorcacheError :=
  {| kind := k; name := n;
     message := message base; status := status base; code := code base;
     details := details base; retryAfter := retryAfter base |}.

(** [this.retryAfter = retryAfter]. *)
Definition set_retryAfter (this : VectorcacheError) (r : option Number)
  : VectorcacheError :=
  {| kind := kind this; name := name this;
     message := message this; status := status this; code := code this;
     details := details this; retryAfter := r |}.

Section ErrorClasses.

Variable w : World.

(** The base class: [super(message)] stores the string form of the
    message, or throws what the conversion throws. *)
Definition VectorcacheAPIError
    (message : json) (status : option Z) (code : option string)
    (details : option json) : Outcome VectorcacheError :=
  and_then (ToString w message)
    (fun text =>
       Returned {| kind := APIError; name := "VectorcacheAPIError";
                   message := text; status := status; code := code;
                   details := details; retryAfter := None |}).

Definition VectorcacheAuthenticationError (message : option json)
  : Outcome VectorcacheError :=
  let message := default_param message (JStr "Invalid or missing API key") in
  and_then
    (VectorcacheAPIError message (Some 401) (Some "AUTHENTICATION_ERROR") None)
    (fun this =>
       Returned (subclass this AuthenticationError
                   "VectorcacheAuthenticationError")).

Definition VectorcacheRateLimitError
    (message : option json) (retryAfter : option Number)
  : Outcome VectorcacheError :=
  let message := default_param message (JStr "Rate limit exceeded") in
  and_then
    (VectorcacheAPIError message (Some 429) (Some "RATE_LIMIT_ERROR") None)
    (fun this =>
       Returned (set_retryAfter
                   (subclass this RateLimitError "VectorcacheRateLimitError")
                   retryAfter)).

Definition VectorcacheValidationError
    (message : json) (details : option json) : Outcome VectorcacheError :=
  and_then
    (VectorcacheAPIError message (Some 400) (Some "VALIDATION_ERROR") details)
    (fun this =>
       Returned (subclass this ValidationError "VectorcacheValidationError")).

Definition VectorcacheNetworkError (message : option json)
  : Outcome VectorcacheError :=
  let message := default_param message (JStr "Network error occurred") in
  and_then
    (VectorcacheAPIError message None (Some "NETWORK_ERROR") None)
    (fun this =>
       Returned (subclass this NetworkError "VectorcacheNetworkError")).

Definition VectorcacheTimeoutError (message : option json)
  : Outcome VectorcacheError :=
  let message := default_param message (JStr "Request timeout") in
  and_then
    (VectorcacheAPIError message (Some 408) (Some "TIMEOUT_ERROR") None)
    (fun this =>
       Returned (subclass this TimeoutError "VectorcacheTimeoutError")).

Definition VectorcacheServerError
    (message : option json) (status : option Z) : Outcome VectorcacheError :=
  let message := default_param message (JStr "Internal server error") in
  let status := default_param status 500 in
  and_then
    (VectorcacheAPIError message (Some status) (Some "SERVER_ERROR") None)
    (fun this =>
       Returned (subclass this ServerError "VectorcacheServerError")).

(** The [message] constant of the factory, before any conversion. *)
Definition response_message
    (response : Response.t) (responseBody : option json) : json :=
  or_default
    (get_prop responseBody "message"
       ||| get_prop responseBody "detail"
       ||| Some (JStr (Response.statusText response)))
    (JStr "Unknown error").

(** The [switch] on the status is a chain of tests, one per group of
    [case] labels, ending in the [default]. *)
Definition createErrorFromResponse
    (response : Response.t) (responseBody : option json)
  : Outcome VectorcacheError :=
  let status := Response.status response in
  let message := response_message response responseBody in
  if status =? 400 then
    VectorcacheValidationError message responseBody
  else if (status =? 401) || (status =? 403) then
    VectorcacheAuthenticationError (Some message)
  else if status =? 408 then
    VectorcacheTimeoutError (Some message)
  else if status =? 429 then
    let retryAfter := Response.headers response "Retry-After" in
    VectorcacheRateLimitError (Some message)
      (match retryAfter with
       | Some header =>
           if truthy header then Some (parseInt header 10) else None
       | None => None
       end)
  else if (status =? 500) || (status =? 502)
          || (status =? 503) || (status =? 504) then
    VectorcacheServerError (Some message) (Some status)
  else
    VectorcacheAPIError message (Some status) (Some "API_ERROR") responseBody.

End ErrorClasses.

(* ================================================================== *)
(** ** client.ts: configuration and run state *)
(* ================================================================== *)

Inductive LogLevel : Type := debug | info | warn | error | none.

#[global] Instance Truthy_LogLevel : Truthy LogLevel := fun _ => true.

(** The [levels] table of [log]. *)
Definition levels (l : LogLevel) : Z :=
  match l with
  | debug => 0 | info => 1 | warn => 2 | error => 3 | none => 4
  end.

Module VectorcacheConfig.
(** The constructor's argument. [apiKey] is declared required, yet
    the constructor tests it, so it is optional here as well. *)
Record t : Type := {
  apiKey : option string;
  baseUrl : option string;
  projectId : option string;
  timeout : option Z;
  logLevel : option LogLevel
}.
End VectorcacheConfig.

Module RequestOptions.
Record t : Type := {
  projectId : option string;
  timeout : option Z
}.
End RequestOptions.

Record VectorcacheClient : Type := {
  apiKey : string;
  baseUrl : string;
  defaultProjectId : option string;
  timeout : Z;
  logLevel : LogLevel
}.

(** What a run does to the outside world, in order. *)
Inductive Event : Type :=
| EvLog (level : LogLevel) (line : string)
| EvFetch (call : FetchCall)
| EvAbort.

(** [trace]: the events so far; [now]: the virtual clock, in
    milliseconds; [timer]: the instant at which the pending abort timer
    fires, if one is pending. *)
Record RunState : Type := {
  trace : list Event;
  now : Z;
  timer : option Z
}.

Definition start : RunState := {| trace := []; now := 0; timer := None |}.

(** Computations of the client: they may throw, and what they did
    before throwing stays done. *)
Definition M (A : Type) : Type := RunState -> Outcome A * RunState.

Definition ret {A} (a : A) : M A := fun s => (Returned a, s).

Definition throw {A} (t : Thrown) : M A := fun s => (Threw t, s).

(** A call of a built-in or of a constructor, which touches nothing. *)
Definition lift {A} (o : Outcome A) : M A := fun s => (o, s).

Definition bind {A B} (m : M A) (k : A -> M B) : M B :=
  fun s =>
    match m s with
    | (Returned a, s') => k a s'
    | (Threw t, s') => (Threw t, s')
    end.

Definition try_catch {A} (body : M A) (handler : Thrown -> M A) : M A :=
  fun s =>
    match body s with
    | (Returned a, s') => (Returned a, s')
    | (Threw t, s') => handler t s'
    end.

Notation "x <- m ;; k" := (bind m (fun x => k))
  (at level 61, m at next level, right associativity).
Notation "m ;; k" := (bind m (fun _ => k))
  (at level 61, right associativity).

(** [throw new C(...)]: the instance is thrown once it is constructed;
    if the constructor throws, that is what is thrown. *)
Definition throw_new {A} (instance : Outcome VectorcacheError) : M A :=
  e <- lift instance ;; throw (ThrowAPI e).

Definition emit (e : Event) : M unit :=
  fun s => (Returned tt,
            {| trace := trace s ++ [e]; now := now s; timer := timer s |}).

(** The delay a timer really gets: Node.js replaces a delay below
    1 ms or above 2147483647 ms by 1 ms. *)
Definition timer_delay (ms : Z) : Z :=
  if (1 <=? ms) && (ms <=? 2147483647) then ms else 1.

(** [setTimeout(() => controller.abort(), ms)]. *)
Definition setTimeout (ms : Z) : M unit :=
  fun s => (Returned tt,
            {| trace := trace s; now := now s;
               timer := Some (now s + timer_delay ms) |}).

Definition clearTimeout : M unit :=
  fun s => (Returned tt,
            {| trace := trace s; now := now s; timer := None |}).

(** What [fetch] and the body reader reject with once the signal is
    aborted: a [DOMException] named [AbortError], which is an [Error]. *)
Definition AbortError : Thrown :=
  ThrowError "AbortError" "This operation was aborted".

(** [await] on a promise bound to the controller's signal. If an abort
    timer is pending and fires no later than the promise settles, the
    timer callback aborts the signal and the promise rejects with
    [AbortError] at that instant; otherwise the clock advances to the
    settlement. *)
Definition await {A} (p : Promise A) : M A :=
  fun s =>
    let settles_at := now s + settles_after p in
    let settle :=
      (match settlement p with
       | Fulfilled a => Returned a
       | Rejected t => Threw t
       end,
       {| trace := trace s; now := settles_at; timer := timer s |}) in
    match timer s with
    | Some fires_at =>
        if fires_at <=? settles_at
        then (Threw AbortError,
              {| trace := trace s ++ [EvAbort];
                 now := Z.max (now s) fires_at;
                 timer := None |})
        else settle
    | None => settle
    end.

(* ================================================================== *)
(** ** client.ts: the client *)
(* ================================================================== *)

Definition new_VectorcacheClient (config : VectorcacheConfig.t)
  : M VectorcacheClient :=
  match VectorcacheConfig.apiKey config with
  | Some key =>
      if negb (truthy key) then
        throw (ThrowError "Error" "API key is required")
      else
        ret {| apiKey := key;
               baseUrl := or_default (VectorcacheConfig.baseUrl config)
                            "https://api.vectorcache.com";
               defaultProjectId := VectorcacheConfig.projectId config;
               timeout := or_default (VectorcacheConfig.timeout config) 30000;
               logLevel := or_default (VectorcacheConfig.logLevel config) warn |}
  | None => throw (ThrowError "Error" "API key is required")
  end.

(** [log]: one console line when the level passes the threshold. The
    line is recorded without its timestamp prefix and data argument. *)
Definition log (this : VectorcacheClient) (level : LogLevel) (line : string)
  : M unit :=
  if levels (logLevel this) <=? levels level
  then emit (EvLog level line)
  else ret tt.

(** The [headers] constant of [makeRequest]. *)
Definition request_headers (this : VectorcacheClient)
  : list (string * string) :=
  [ ("Authorization", "Bearer " ++ apiKey this);
    ("Content-Type", "application/json");
    ("User-Agent", "vectorcache-js/0.1.0") ].

Section Dispatcher.

Variable w : World.
Variable this : VectorcacheClient.

(** The [timeout] constant of [makeRequest]. *)
Definition resolved_timeout (options : option RequestOptions.t) : Z :=
  or_default (opt_field options RequestOptions.timeout) (timeout this).

(** [url] and [requestOptions] of [makeRequest]: what is handed to
    [fetch]. A truthy body is serialised, which may throw. *)
Definition request_init
    (method : Method) (endpoint : string) (body : option json)
  : Outcome FetchCall :=
  let url := baseUrl this ++ endpoint in
  let headers := request_headers this in
  and_then
    (match body with
     | Some b =>
         if truthy b
         then and_then (JSON_stringify w b) (fun text => Returned (Some text))
         else Returned None
     | None => Returned None
     end)
    (fun sent =>
       Returned {| url := url; method := method; req_headers := headers;
                   req_body := sent |}).

(** The inner [try]/[catch] around [JSON.parse]. *)
Definition parse_body (responseText : string) : json :=
  if truthy responseText then
    match JSON_parse w responseText with
    | Some v => v
    | None => JObj [("message", JStr responseText)]
    end
  else JObj [].

(** The [try] block of [makeRequest]. *)
Definition makeRequest_try (timeout : Z) (requestOptions : FetchCall)
  : M json :=
  setTimeout timeout ;;
  emit (EvFetch requestOptions) ;;
  response <- await (fetch w requestOptions) ;;
  clearTimeout ;;
  responseText <- await (Response.text response) ;;
  let responseBody := parse_body responseText in
  if negb (Response.ok response) then
    log this error
      ("API request failed: "
         ++ Number_toString w (Response.status response) ++ " "
         ++ Response.statusText response) ;;
    throw_new (createErrorFromResponse w response (Some responseBody))
  else
    log this debug
      ("API request successful: "
         ++ Number_toString w (Response.status response)) ;;
    ret responseBody.

(** The [catch] clause of [makeRequest]. *)
Definition makeRequest_catch (timeout : Z) (caught : Thrown) : M json :=
  match caught with
  | ThrowAPI e => throw (ThrowAPI e)
  | ThrowError name message =>
      if String.eqb name "AbortError" then
        throw_new (VectorcacheTimeoutError w
          (Some (JStr ("Request timeout after "
                         ++ Number_toString w timeout ++ "ms"))))
      else
        log this error ("Network error: " ++ message) ;;
        throw_new (VectorcacheNetworkError w
          (Some (JStr ("Network error: " ++ message))))
  | ThrowOther _ =>
      throw_new (VectorcacheAPIError w
        (JStr "Unknown error occurred") None None None)
  end.

(** [requestOptions] is built, and the body serialised, before the
    [try] block is entered. *)
Definition makeRequest
    (method : Method) (endpoint : string)
    (body : option json) (options : option RequestOptions.t) : M json :=
  let timeout := resolved_timeout options in
  requestOptions <- lift (request_init method endpoint body) ;;
  log this debug
    ("Making " ++ Method_toString method ++ " request to "
       ++ url requestOptions) ;;
  try_catch
    (makeRequest_try timeout requestOptions)
    (makeRequest_catch timeout).

Definition query (request : json) (options : option RequestOptions.t)
  : M json :=
  makeRequest POST "/v1/cache/query" (Some request) options.

Definition testCache (request : json) (options : option RequestOptions.t)
  : M json :=
  makeRequest POST "/v1/cache/test" (Some request) options.

Definition getCacheStats
    (projectId : option string) (options : option RequestOptions.t)
  : M json :=
  let id :=
    projectId
      ||| opt_field options RequestOptions.projectId
      ||| defaultProjectId this in
  if negb (truthy id) then
    throw_new (VectorcacheAPIError w
      (JStr "Project ID is required") None None None)
  else
    makeRequest GET
      ("/v1/cache/projects/" ++ template id ++ "/stats")
      None options.

Definition clearCache (request : json) (options : option RequestOptions.t)
  : M json :=
  makeRequest POST "/v1/cache/clear" (Some request) options.

(** The path is computed, and the query encoded, before [makeRequest]
    is called. *)
Definition findSimilarQueries
    (query : string) (projectId : option string)
    (options : option RequestOptions.t) : M json :=
  let id :=
    projectId
      ||| opt_field options RequestOptions.projectId
      ||| defaultProjectId this in
  if negb (truthy id) then
    throw_new (VectorcacheAPIError w
      (JStr "Project ID is required") None None None)
  else
    encoded <- lift (encodeURIComponent w query) ;;
    makeRequest GET
      ("/v1/cache/projects/" ++ template id
         ++ "/similar?query=" ++ encoded)
      None options.

Definition health : M json :=
  makeRequest GET "/health" None None.

Definition getConfig : VectorcacheConfig.t :=
  {| VectorcacheConfig.apiKey := None;
     VectorcacheConfig.baseUrl := Some (baseUrl this);
     VectorcacheConfig.projectId := defaultProjectId this;
     VectorcacheConfig.timeout := Some (timeout this);
     VectorcacheConfig.logLevel := None |}.

Definition setDefaultProjectId (projectId : string) : VectorcacheClient :=
  {| apiKey := apiKey this;
     baseUrl := baseUrl this;
     defaultProjectId := Some projectId;
     timeout := timeout this;
     logLevel := logLevel this |}.

End Dispatcher.

(** Running a computation from a fresh state. *)
Definition run {A} (m : M A) : Outcome A * RunState := m start.

(** The [fetch] calls of a trace, in order. *)
Definition fetches (tr : list Event) : list FetchCall :=
  flat_map (fun e => match e with EvFetch c => [c] | _ => [] end) tr.

(** Examples are run against canned responses, as the repository's own
    tests do with a mocked [fetch]. *)
Module Mock.

Definition headers_of (l : list (string * string)) (k : string)
  : option string :=
  match find (fun p => String.eqb (fst p) k) l with
  | Some p => Some (snd p)
  | None => None
  end.

(** A response with the given status line and headers, whose body
    [body] arrives [body_ms] after the headers. *)
Definition response
    (status : Z) (statusText : string) (hs : list (string * string))
    (body_ms : Z) (body : string) : Response.t :=
  {| Response.ok := (200 <=? status) && (status <=? 299);
     Response.status := status;
     Response.statusText := statusText;
     Response.headers := headers_of hs;
     Response.text := {| settles_after := body_ms;
                         settlement := Fulfilled body |} |}.

(** [JSON.parse] on the texts the examples send through it: the
    three documents below, and texts that are not JSON. *)
Definition parse (s : string) : option json :=
  if String.eqb s "{}" then Some (JObj [])
  else if String.eqb s "[]" then Some (JArr [])
  else if String.eqb s "null" then Some JNull
  else None.

Definition hex_digit (upper : bool) (n : N) : ascii :=
  ascii_of_N (if (n <? 10)%N then 48 + n
              else if upper then 55 + n else 87 + n)%N.

Definition hex2 (upper : bool) (c : ascii) : string :=
  let n := N_of_ascii c in
  String (hex_digit upper (n / 16)) (String (hex_digit upper (n mod 16)) "").

Definition dquote : string := String (ascii_of_N 34) "".

(** How [JSON.stringify] writes one character of a string. *)
Definition quote_char (c : ascii) : string :=
  let n := N_of_ascii c in
  if (n =? 34)%N then "\" ++ dquote
  else if (n =? 92)%N then "\\"
  else if (n =? 8)%N then "\b"
  else if (n =? 9)%N then "\t"
  else if (n =? 10)%N then "\n"
  else if (n =? 12)%N then "\f"
  else if (n =? 13)%N then "\r"
  else if (n <? 32)%N then "\u00" ++ hex2 false c
  else String c "".

Fixpoint quote_chars (s : string) : string :=
  match s with
  | EmptyString => EmptyString
  | String c rest => quote_char c ++ quote_chars rest
  end.

Definition quote (s : string) : string := dquote ++ quote_chars s ++ dquote.

Definition cannot_serialize : Thrown :=
  ThrowError "TypeError" "Do not know how to serialize a BigInt".

(** [JSON.stringify] on the values of the model whose numbers are
    within 2^53: it throws at the first [BigInt] it meets. *)
Fixpoint stringify (v : json) : Outcome string :=
  match v with
  | JNull => Returned "null"
  | JBool b => Returned (if b then "true" else "false")
  | JNum z => Returned (numeral z)
  | JBigInt _ => Threw cannot_serialize
  | JStr s => Returned (quote s)
  | JArr items =>
      and_then
        ((fix elements (l : list json) : Outcome string :=
            match l with
            | [] => Returned ""
            | x :: rest =>
                and_then (stringify x)
                  (fun first =>
                     match rest with
                     | [] => Returned first
                     | _ :: _ =>
                         and_then (elements rest)
                           (fun others => Returned (first ++ "," ++ others))
                     end)
            end) items)
        (fun inner => Returned ("[" ++ inner ++ "]"))
  | JObj fields =>
      and_then
        ((fix members (l : list (string * json)) : Outcome string :=
            match l with
            | [] => Returned ""
            | (k, x) :: rest =>
                and_then (stringify x)
                  (fun value =>
                     let first := quote k ++ ":" ++ value in
                     match rest with
                     | [] => Returned first
                     | _ :: _ =>
                         and_then (members rest)
                           (fun others => Returned (first ++ "," ++ others))
                     end)
            end) fields)
        (fun inner => Returned ("{" ++ inner ++ "}"))
  end.

(** The characters [encodeURIComponent] leaves alone: letters,
    digits and [- _ . ! ~ * ' ( )]. *)
Definition unreserved (c : ascii) : bool :=
  let n := N_of_ascii c in
  ((48 <=? n) && (n <=? 57) || (65 <=? n) && (n <=? 90)
   || (97 <=? n) && (n <=? 122)
   || existsb (N.eqb n) [45; 95; 46; 33; 126; 42; 39; 40; 41])%N.

Fixpoint percent_encode (s : string) : string :=
  match s with
  | EmptyString => EmptyString
  | String c rest =>
      if unreserved c then String c (percent_encode rest)
      else String "%"%char (hex2 true c ++ percent_encode rest)
  end.

(** A surrogate on its own, as the bytes of a string hold it: 237
    followed by a byte from 160 on. *)
Fixpoint has_lone_surrogate (s : string) : bool :=
  match s with
  | EmptyString => false
  | String c rest =>
      match rest with
      | String d _ =>
          ((N_of_ascii c =? 237) && (160 <=? N_of_ascii d))%N
          || has_lone_surrogate rest
      | EmptyString => false
      end
  end.

(** [encodeURIComponent] on the bytes of a string. *)
Definition encode (s : string) : Outcome string :=
  if has_lone_surrogate s then Threw (ThrowError "URIError" "URI malformed")
  else Returned (percent_encode s).

(** A platform whose [fetch] settles after [ms] with [r], and which
    prints the numbers of the examples (all within 2^53) as their
    numerals. *)
Definition world (ms : Z) (r : Settled Response.t) : World :=
  {| fetch := fun _ => {| settles_after := ms; settlement := r |};
     JSON_parse := parse;
     JSON_stringify := stringify;
     encodeURIComponent := encode;
     large_Number_toString := numeral |}.

(** The server answers 200 at once, then takes a minute to send a
    two-character body. *)
Definition slow_body : World :=
  world 10 (Fulfilled (response 200 "OK" [] 60000 "{}")).

(** The server takes forty seconds to answer. *)
Definition stalled : World :=
  world 40000 (Fulfilled (response 200 "OK" [] 0 "{}")).

(** The server answers after a tenth of a second. *)
Definition prompt : World :=
  world 100 (Fulfilled (response 200 "OK" [] 0 "{}")).

(** No route to the server. *)
Definition unreachable : World :=
  world 5 (Rejected (ThrowError "TypeError" "fetch failed")).

(** The server answers 200 with an empty body. *)
Definition empty_ok : World :=
  world 10 (Fulfilled (response 200 "OK" [] 5 "")).

(** A proxy answers 502 with a page of HTML. *)
Definition bad_gateway_page : string := "<html>Bad Gateway</html>".

Definition bad_gateway : World :=
  world 10 (Fulfilled (response 502 "Bad Gateway" [] 5 bad_gateway_page)).

(** The client of the test suite. *)
Definition client : VectorcacheClient :=
  {| apiKey := "test-api-key";
     baseUrl := "https://api.test.com";
     defaultProjectId := None;
     timeout := 30000;
     logLevel := warn |}.

(** A body whose [message] is an object with a [toString] entry. *)
Definition odd_body : json :=
  JObj [("message", JObj [("toString", JNum 0)])].

(** A query, and its serialisation. *)
Definition hello_request : json := JObj [("query", JStr "hello")].

Definition hello_text : string :=
  "{" ++ quote "query" ++ ":" ++ quote "hello" ++ "}".

(** A query whose metadata hold a [BigInt]. *)
Definition bigint_request : json :=
  JObj [("query", JStr "hello"); ("metadata", JObj [("n", JBigInt 1)])].

(** The three bytes that hold the surrogate U+D800. *)
Definition lone_surrogate : string :=
  String (ascii_of_N 237) (String (ascii_of_N 160) (String (ascii_of_N 128) "")).

End Mock.

(* ================================================================== *)
(** ** Notions used in the statements *)
(* ================================================================== *)

(** The table of the specification: status code, variant. *)
Definition spec_table : list (Z * ErrorClass) :=
  [ (400, ValidationError);
    (401, AuthenticationError); (403, AuthenticationError);
    (408, TimeoutError);
    (429, RateLimitError);
    (500, ServerError); (502, ServerError);
    (503, ServerError); (504, ServerError) ].

(** The variant the table gives a status: its row, else the generic
    API error of the last line ("any other"). *)
Definition spec_variant (s : Z) : ErrorClass :=
  match find (fun row => s =? fst row) spec_table with
  | Some row => snd row
  | None => APIError
  end.

(** The status codes that have a row of their own. *)
Definition mapped_statuses : list Z := map fst spec_table.

(** The [name] each class gives its instances. *)
Definition class_name (k : ErrorClass) : string :=
  match k with
  | APIError => "VectorcacheAPIError"
  | AuthenticationError => "VectorcacheAuthenticationError"
  | RateLimitError => "VectorcacheRateLimitError"
  | ValidationError => "VectorcacheValidationError"
  | NetworkError => "VectorcacheNetworkError"
  | TimeoutError => "VectorcacheTimeoutError"
  | ServerError => "VectorcacheServerError"
  end.

(** The [code] each subclass passes to the base constructor, and the
    one the factory passes for the base class. *)
Definition class_code (k : ErrorClass) : string :=
  match k with
  | APIError => "API_ERROR"
  | AuthenticationError => "AUTHENTICATION_ERROR"
  | RateLimitError => "RATE_LIMIT_ERROR"
  | ValidationError => "VALIDATION_ERROR"
  | NetworkError => "NETWORK_ERROR"
  | TimeoutError => "TIMEOUT_ERROR"
  | ServerError => "SERVER_ERROR"
  end.

(** The errors the client itself raises, field by field. *)
Definition missing_id : VectorcacheError :=
  {| kind := APIError; name := "VectorcacheAPIError";
     message := "Project ID is required";
     status := None; code := None; details := None; retryAfter := None |}.

Definition unknown_error : VectorcacheError :=
  {| kind := APIError; name := "VectorcacheAPIError";
     message := "Unknown error occurred";
     status := None; code := None; details := None; retryAfter := None |}.

Definition timeout_error (text : string) : VectorcacheError :=
  {| kind := TimeoutError; name := "VectorcacheTimeoutError";
     message := text;
     status := Some 408; code := Some "TIMEOUT_ERROR";
     details := None; retryAfter := None |}.

Definition network_error (text : string) : VectorcacheError :=
  {| kind := NetworkError; name := "VectorcacheNetworkError";
     message := text;
     status := None; code := Some "NETWORK_ERROR";
     details := None; retryAfter := None |}.

(** What the caller gets for a value thrown inside the [try] block
    of a request whose timeout is [T]. *)
Definition caught_as (w : World) (T : Z) (t : Thrown) : VectorcacheError :=
  match t with
  | ThrowAPI e => e
  | ThrowError name text =>
      if String.eqb name "AbortError"
      then timeout_error
             ("Request timeout after " ++ Number_toString w T ++ "ms")
      else network_error ("Network error: " ++ text)
  | ThrowOther _ => unknown_error
  end.

(** The headers every request is expected to carry. *)
Definition standard_headers (this : VectorcacheClient)
  : list (string * string) :=
  [ ("Authorization", "Bearer " ++ apiKey this);
    ("Content-Type", "application/json");
    ("User-Agent", "vectorcache-js/0.1.0") ].

(** The request expected for a method, a path and a serialised body. *)
Definition request_of (this : VectorcacheClient)
    (m : Method) (path : string) (sent : option string) : FetchCall :=
  {| url := baseUrl this ++ path; method := m;
     req_headers := standard_headers this; req_body := sent |}.

(** What becomes of the [body] argument of a request: nothing is
    sent for a body that is absent or falsy, and the text the
    serialiser returns is sent for any other. *)
Inductive Serialised (w : World) : option json -> option string -> Prop :=
| nothing_to_send (body : option json) :
    truthy body = false -> Serialised w body None
| body_sent (b : json) (text : string) :
    truthy b = true -> JSON_stringify w b = Returned text ->
    Serialised w (Some b) (Some text).

(** An integer that every Number holds exactly. *)
Definition safe_integer (z : Z) : Prop := Z.abs z <= 2 ^ 53.

(** The first character of a text that holds no integer for
    [parseInt]: neither white space, nor a sign, nor a decimal digit. *)
Definition not_numeric_start (c : ascii) : bool :=
  negb (is_StrWhiteSpaceChar c)
  && negb (Ascii.eqb c "+") && negb (Ascii.eqb c "-")
  && negb (match digit_value c with
           | Some d => d <? 10
           | None => false
           end).

(** A text at which a decimal numeral ends: it is empty or starts with
    something else than a decimal digit. *)
Definition ends_numeral (tail : string) : bool :=
  match tail with
  | EmptyString => true
  | String c _ =>
      negb (match digit_value c with
            | Some d => d <? 10
            | None => false
            end)
  end.

(** A body that is some value other than an object, or no body. *)
Definition not_an_object (body : option json) : bool :=
  match body with
  | Some (JObj _) => false
  | _ => true
  end.

(** The platform fails the exchange [call] with [t]: [fetch] itself
    rejects before the timer, set for [delay] ms, fires, or it answers
    before that with a response whose body then fails to arrive. *)
Inductive Rejects (w : World) (delay : Z) (call : FetchCall)
  : Thrown -> Prop :=
| fetch_rejects (t : Thrown) :
    settles_after (fetch w call) < delay ->
    settlement (fetch w call) = Rejected t ->
    Rejects w delay call t
| body_rejects (r : Response.t) (t : Thrown) :
    settles_after (fetch w call) < delay ->
    settlement (fetch w call) = Fulfilled r ->
    settlement (Response.text r) = Rejected t ->
    Rejects w delay call t.

(** The platform answers [call] before the timer, set for [delay] ms,
    fires, with the response [r], whose body then arrives as the text
    [txt]. *)
Definition Delivers (w : World) (delay : Z) (call : FetchCall)
    (r : Response.t) (txt : string) : Prop :=
  settles_after (fetch w call) < delay /\
  settlement (fetch w call) = Fulfilled r /\
  settlement (Response.text r) = Fulfilled txt.

(** The log lines of a trace, in order. *)
Definition logs (tr : list Event) : list (LogLevel * string) :=
  flat_map (fun e => match e with EvLog l line => [(l, line)] | _ => [] end)
    tr.

(** A client's configuration as [getConfig] reports it, completed with
    the two fields it leaves out. *)
Definition full_config (this : VectorcacheClient) : VectorcacheConfig.t :=
  {| VectorcacheConfig.apiKey := Some (apiKey this);
     VectorcacheConfig.baseUrl := VectorcacheConfig.baseUrl (getConfig this);
     VectorcacheConfig.projectId :=
       VectorcacheConfig.projectId (getConfig this);
     VectorcacheConfig.timeout := VectorcacheConfig.timeout (getConfig this);
     VectorcacheConfig.logLevel := Some (logLevel this) |}.

(** The client [this] with another credential. *)
Definition with_apiKey (this : VectorcacheClient) (key : string)
  : VectorcacheClient :=
  {| apiKey := key;
     baseUrl := baseUrl this;
     defaultProjectId := defaultProjectId this;
     timeout := timeout this;
     logLevel := logLevel this |}.

(** The client [this] with another log level. *)
Definition with_logLevel (this : VectorcacheClient) (level : LogLevel)
  : VectorcacheClient :=
  {| apiKey := apiKey this;
     baseUrl := baseUrl this;
     defaultProjectId := defaultProjectId this;
     timeout := timeout this;
     logLevel := level |}.

(* ================================================================== *)
(** ** Facts about the JavaScript layer *)
(* ================================================================== *)

Lemma truthy_string_false (s : string) : truthy s = false <-> s = "".
Proof. destruct s; cbn; split; congruence. Qed.

Lemma truthy_string_true (s : string) : truthy s = true <-> s <> "".
Proof. destruct s; cbn; split; intro H; congruence. Qed.

Lemma truthy_option_string_false (o : option string) :
  truthy o = false <-> o = None \/ o = Some "".
Proof.
  destruct o as [s|]; cbn.
  - split.
    + intro H. apply truthy_string_false in H. subst. now right.
    + intros [H|H]; [discriminate|]. injection H as ->. reflexivity.
  - split; auto.
Qed.

Lemma truthy_option_some {A} `{Truthy A} (o : option A) :
  truthy o = true -> exists a, o = Some a /\ truthy a = true.
Proof. destruct o as [a|]; cbn; [eauto | discriminate]. Qed.

Lemma jsor_truthy_l {A} `{Truthy A} (a b : option A) :
  truthy a = true -> a ||| b = a.
Proof. unfold jsor. now intros ->. Qed.

Lemma jsor_falsy_l {A} `{Truthy A} (a b : option A) :
  truthy a = false -> a ||| b = b.
Proof. unfold jsor. now intros ->. Qed.

Lemma or_default_truthy {A} `{Truthy A} (a : option A) (d : A) :
  truthy a = true -> Some (or_default a d) = a.
Proof. destruct a as [v|]; cbn; [now intros -> | discriminate]. Qed.

Lemma or_default_falsy {A} `{Truthy A} (a : option A) (d : A) :
  truthy a = false -> or_default a d = d.
Proof. destruct a as [v|]; cbn; [now intros -> | reflexivity]. Qed.

Lemma append_empty_r (s : string) : s ++ "" = s.
Proof. induction s; cbn; congruence. Qed.

Lemma to_double_safe (z : Z) : safe_integer z -> to_double z = Fin z.
Proof.
  unfold safe_integer, to_double. intro H.
  apply Z.leb_le in H. now rewrite H.
Qed.

Lemma Number_toString_safe (w : World) (z : Z) :
  safe_integer z -> Number_toString w z = numeral z.
Proof.
  unfold safe_integer, Number_toString. intro H.
  apply Z.leb_le in H. now rewrite H.
Qed.

Lemma timer_delay_in_range (ms : Z) :
  1 <= ms <= 2147483647 -> timer_delay ms = ms.
Proof.
  intros [H1 H2]. unfold timer_delay.
  apply Z.leb_le in H1, H2. now rewrite H1, H2.
Qed.

Lemma timer_delay_out_of_range (ms : Z) :
  ms < 1 \/ 2147483647 < ms -> timer_delay ms = 1.
Proof.
  unfold timer_delay. intros [H|H]; apply Z.leb_gt in H; rewrite H;
    [reflexivity | now rewrite andb_false_r].
Qed.

(** *** [parseInt] on a text that begins with a numeral *)

Section ParseNumeral.

Import Decimal.

Variable tail : string.
Hypothesis Htail : ends_numeral tail = true.

Lemma read_digits_step (c : ascii) (k : Z) (rest : string) (acc : option Z) :
  digit_value c = Some k -> (k <? 10) = true ->
  read_digits 10 (String c rest) acc
  = read_digits 10 rest
      (Some (10 * match acc with Some a => a | None => 0 end + k)).
Proof. intros Hc Hk. cbn [read_digits]. now rewrite Hc, Hk. Qed.

Lemma read_digits_end (acc : option Z) : read_digits 10 tail acc = acc.
Proof.
  revert Htail. destruct tail as [|c rest]; [reflexivity|].
  cbn [ends_numeral read_digits]. intro H. apply negb_true_iff in H.
  destruct (digit_value c) as [d|]; [now rewrite H | reflexivity].
Qed.

Ltac read_next_digit :=
  cbn [NilEmpty.string_of_uint Pos.of_uint_acc Pos.of_uint append];
  erewrite read_digits_step by (vm_compute; reflexivity).

(** Once a non-zero digit has been read, the remaining digits extend
    the accumulator exactly as the library's reader does. *)
Lemma read_digits_acc (d : uint) (acc : positive) :
  read_digits 10 (NilEmpty.string_of_uint d ++ tail) (Some (Zpos acc))
  = Some (Zpos (Pos.of_uint_acc d acc)).
Proof.
  revert acc.
  induction d; intro acc; [apply read_digits_end | read_next_digit ..];
    match goal with
    | |- read_digits _ _ (Some ?v) = Some (Zpos (Pos.of_uint_acc _ ?q)) =>
        replace v with (Zpos q) by lia
    end; apply IHd.
Qed.

Lemma read_digits_zero (d : uint) :
  read_digits 10 (NilEmpty.string_of_uint d ++ tail) (Some 0)
  = Some (Z.of_N (Pos.of_uint d)).
Proof.
  induction d; [apply read_digits_end | read_next_digit ..];
    solve [ exact IHd | apply read_digits_acc ].
Qed.

Lemma read_digits_start (d : uint) :
  d <> Nil ->
  read_digits 10 (NilEmpty.string_of_uint d ++ tail) None
  = Some (Z.of_N (Pos.of_uint d)).
Proof.
  destruct d; intro Hd; [congruence | read_next_digit ..];
    solve [ apply read_digits_zero | apply read_digits_acc ].
Qed.

(** A printed numeral starts with a digit: nothing to trim, no sign. *)
Lemma numeral_head (d : uint) :
  d <> Nil ->
  strip_sign (trim_start (NilEmpty.string_of_uint d ++ tail))
  = (false, NilEmpty.string_of_uint d ++ tail).
Proof. destruct d; intro Hd; try congruence; reflexivity. Qed.

Lemma string_of_uint_nonnil (d : uint) :
  d <> Nil -> NilZero.string_of_uint d = NilEmpty.string_of_uint d.
Proof. unfold NilZero.string_of_uint. destruct d; congruence. Qed.

(** What [parseInt] reads from the numeral of an integer, whatever
    follows the numeral: the Number for that integer. *)
Lemma parseInt_numeral_prefix (z : Z) :
  parseInt (numeral z ++ tail) 10
  = if z =? 0 then Fin 0 else to_double z.
Proof.
  destruct z as [|p|p]; unfold numeral, parseInt; cbn [Z.to_int Z.eqb].
  - cbn [NilZero.string_of_int NilZero.string_of_uint append].
    change (strip_sign (trim_start (String "0" tail)))
      with (false, String "0" tail).
    cbn -[read_digits to_double].
    erewrite read_digits_step by (vm_compute; reflexivity).
    now rewrite read_digits_end.
  - pose proof (DecimalPos.Unsigned.to_uint_nonnil p) as Hnil.
    cbn [NilZero.string_of_int]. rewrite string_of_uint_nonnil by assumption.
    rewrite numeral_head by assumption. cbn -[read_digits to_double].
    rewrite read_digits_start by assumption.
    rewrite DecimalPos.Unsigned.of_to. reflexivity.
  - pose proof (DecimalPos.Unsigned.to_uint_nonnil p) as Hnil.
    cbn [NilZero.string_of_int]. rewrite string_of_uint_nonnil by assumption.
    change (strip_sign
              (trim_start
                 (String "-" (NilEmpty.string_of_uint (Pos.to_uint p)) ++ tail)))
      with (true, NilEmpty.string_of_uint (Pos.to_uint p) ++ tail).
    cbn -[read_digits to_double].
    rewrite read_digits_start by assumption.
    rewrite DecimalPos.Unsigned.of_to. reflexivity.
Qed.

(** Within 2^53, that Number is the integer itself. *)
Lemma parseInt_numeral_prefix_safe (z : Z) :
  safe_integer z -> parseInt (numeral z ++ tail) 10 = Fin z.
Proof.
  intro Hz. rewrite parseInt_numeral_prefix.
  destruct (Z.eqb_spec z 0) as [->|_]; [reflexivity|].
  now apply to_double_safe.
Qed.

End ParseNumeral.

Lemma parseInt_numeral (z : Z) :
  safe_integer z -> parseInt (numeral z) 10 = Fin z.
Proof.
  intro Hz. rewrite <- (append_empty_r (numeral z)).
  now apply parseInt_numeral_prefix_safe.
Qed.

Lemma numeral_nonempty (z : Z) (tail : string) : numeral z ++ tail <> "".
Proof.
  unfold numeral.
  destruct z as [|p|p]; cbn; try discriminate.
  all: unfold NilZero.string_of_uint;
    pose proof (DecimalPos.Unsigned.to_uint_nonnil p);
    destruct (Pos.to_uint p); cbn; congruence.
Qed.

Lemma parseInt_not_numeric (c : ascii) (rest : string) :
  not_numeric_start c = true -> parseInt (String c rest) 10 = NaN.
Proof.
  unfold not_numeric_start. intro H.
  repeat (apply andb_prop in H; destruct H as [H ?]).
  rewrite negb_true_iff in *.
  unfold parseInt. simpl trim_start. rewrite H.
  assert (Hsign : strip_sign (String c rest) = (false, String c rest)).
  { unfold strip_sign.
    destruct c as [[] [] [] [] [] [] [] []]; try reflexivity;
      simpl in *; discriminate. }
  rewrite Hsign. cbn -[read_digits to_double]. cbn [read_digits].
  destruct (digit_value c) as [d|]; [|reflexivity].
  match goal with Hd : (d <? 10) = false |- _ => rewrite Hd end.
  reflexivity.
Qed.

(* ================================================================== *)
(** ** The error classifier ([createErrorFromResponse]) *)
(* ================================================================== *)

(** Induction on a value, through the elements of arrays. *)
Lemma json_array_ind (P : json -> Prop) :
  (forall v, (forall items, v <> JArr items) -> P v) ->
  (forall items, Forall P items -> P (JArr items)) ->
  forall v, P v.
Proof.
  intros Hother Harr.
  refine (fix IH (v : json) : P v :=
            match v with
            | JArr items =>
                Harr items
                  ((fix all (l : list json) : Forall P l :=
                      match l with
                      | [] => Forall_nil P
                      | x :: rest => Forall_cons x (IH x) (all rest)
                      end) items)
            | _ => Hother _ _
            end); discriminate.
Qed.

(** The string conversion throws one thing only: the [TypeError] for
    an object without a usable [toString]. *)
Lemma ToString_throws (w : World) (v : json) (t : Thrown) :
  ToString w v = Threw t -> t = cannot_convert.
Proof.
  revert t. induction v as [v Hv | items IH] using json_array_ind; intro t.
  - destruct v as [ | b | z | z | s | items | fields]; cbn [ToString];
      try discriminate.
    + now destruct (Hv items).
    + destruct (assoc "toString" fields); [|discriminate]. now intros [= <-].
  - cbn [ToString]. revert t.
    induction IH as [|x rest Hx _ IHrest]; intros t; [discriminate|].
    destruct (match x with JNull => Returned "" | _ => ToString w x end)
      as [first|t0] eqn:Hfirst; cbn [and_then].
    + destruct rest as [|y rest']; [discriminate|].
      match goal with
      | |- and_then ?j _ = _ -> _ => destruct j eqn:Hrest
      end; cbn [and_then]; [discriminate|].
      intros [= <-]. now apply IHrest.
    + intros [= <-]. destruct x; try discriminate; now apply Hx.
Qed.

(** Follow the [switch] of the factory into the branch of the status
    at hand, down to the conversion of the message. *)
Ltac switch_on_status :=
  unfold createErrorFromResponse, VectorcacheValidationError,
    VectorcacheAuthenticationError, VectorcacheTimeoutError,
    VectorcacheRateLimitError, VectorcacheServerError, VectorcacheAPIError,
    default_param;
  cbv zeta;
  repeat match goal with
         | |- context [Z.eqb ?a ?b] => destruct (Z.eqb_spec a b)
         end;
  cbn [orb].

(** The branch has built its error from the text [Htext] gives. *)
Ltac built_from Htext :=
  rewrite Htext; cbn [and_then]; eexists; split; [reflexivity|];
  cbn [subclass set_retryAfter kind name message status code details
       retryAfter].

(** The [||] chain that resolves the message, case by case. *)
Lemma resolved_message_order (m d : option json) (reason : string) :
  let r := or_default (m ||| d ||| Some (JStr reason)) (JStr "Unknown error") in
  (truthy m = true -> Some r = m) /\
  (truthy m = false -> truthy d = true -> Some r = d) /\
  (truthy m = false -> truthy d = false -> reason <> "" -> r = JStr reason) /\
  (truthy m = false -> truthy d = false -> reason = "" ->
   r = JStr "Unknown error").
Proof.
  cbv zeta. repeat split.
  - intro Hm. rewrite !jsor_truthy_l; auto using or_default_truthy.
    now rewrite jsor_truthy_l.
  - intros Hm Hd. rewrite (jsor_falsy_l _ _ Hm), (jsor_truthy_l _ _ Hd).
    now apply or_default_truthy.
  - intros Hm Hd Hr. rewrite (jsor_falsy_l _ _ Hm), (jsor_falsy_l _ _ Hd).
    apply truthy_string_true in Hr. cbn. now rewrite Hr.
  - intros Hm Hd Hr. rewrite (jsor_falsy_l _ _ Hm), (jsor_falsy_l _ _ Hd).
    rewrite Hr. reflexivity.
Qed.

(** Whatever the class, the factory returns an error as soon as the
    message it resolved has a string form, and the error carries that
    string: the constructors' own default messages never apply. *)
Lemma createErrorFromResponse_returns w response responseBody text :
  ToString w (response_message response responseBody) = Returned text ->
  exists e,
    createErrorFromResponse w response responseBody = Returned e /\
    message e = text.
Proof. intro Htext. switch_on_status; built_from Htext; reflexivity. Qed.

(** When the conversion throws, so does the factory, whatever the
    status. *)
Lemma createErrorFromResponse_throws w response responseBody t :
  ToString w (response_message response responseBody) = Threw t ->
  createErrorFromResponse w response responseBody = Threw t.
Proof. intro Htext. switch_on_status; now rewrite Htext. Qed.


(** The factory throws nothing but what the conversion throws. *)
Lemma createErrorFromResponse_throws_only w response responseBody t :
  createErrorFromResponse w response responseBody = Threw t ->
  t = cannot_convert.
Proof.
  intro Ht.
  destruct (ToString w (response_message response responseBody))
    as [text|t'] eqn:Htext.
  - destruct (createErrorFromResponse_returns _ _ _ _ Htext) as (e & He & _).
    congruence.
  - rewrite (createErrorFromResponse_throws _ _ _ _ Htext) in Ht.
    injection Ht as <-. exact (ToString_throws _ _ _ Htext).
Qed.

(** C1, as stated, fails: the classifier is not total. For a 400
    whose body is the document [{"message": {"toString": 0}}], the
    message it resolves is an object that cannot be converted to a
    string: the base class throws a [TypeError], and the classifier
    returns no error at all. *)
Lemma createErrorFromResponse_total_counterexample :
  response_message (Mock.response 400 "Bad Request" [] 0 "")
    (Some Mock.odd_body)
  = JObj [("toString", JNum 0)] /\
  createErrorFromResponse Mock.prompt
    (Mock.response 400 "Bad Request" [] 0 "") (Some Mock.odd_body)
  = Threw (ThrowError "TypeError" "Cannot convert object to primitive value")
  /\ ~ (exists e,
          createErrorFromResponse Mock.prompt
            (Mock.response 400 "Bad Request" [] 0 "") (Some Mock.odd_body)
          = Returned e).
Proof.
  split; [reflexivity|]. split; [reflexivity|].
  intros (e & He). discriminate He.
Qed.

(** C1, amended. The classifier follows the table of the
    specification for every status code, as far as the message it
    resolved can be converted to a string. When it can, the classifier
    returns one error, carrying that string, whose class is the
    variant the table gives the status (so each status has exactly
    one, and none is left out). Row by row: 400 gives a Validation
    error whose details are the body; 401 and 403 an Authentication
    error; 408 a Timeout error; 429 a RateLimit error; 500, 502, 503
    and 504 a Server error carrying that status; every other status an
    error of the generic class carrying the status, the code
    [API_ERROR] and the body as details. When the conversion throws,
    the classifier throws the same value, whatever the status. *)
Theorem createErrorFromResponse_table
    (w : World) (response : Response.t) (responseBody : option json) :
  let s := Response.status response in
  let m := response_message response responseBody in
  (forall text, ToString w m = Returned text ->
     exists e,
       createErrorFromResponse w response responseBody = Returned e /\
       message e = text /\
       kind e = spec_variant s /\
       (s = 400 -> kind e = ValidationError /\ details e = responseBody) /\
       (s = 401 \/ s = 403 -> kind e = AuthenticationError) /\
       (s = 408 -> kind e = TimeoutError) /\
       (s = 429 -> kind e = RateLimitError) /\
       (s = 500 \/ s = 502 \/ s = 503 \/ s = 504 ->
        kind e = ServerError /\ status e = Some s) /\
       (~ In s mapped_statuses ->
        kind e = APIError /\ status e = Some s /\
        code e = Some "API_ERROR" /\ details e = responseBody)) /\
  (forall t, ToString w m = Threw t ->
     createErrorFromResponse w response responseBody = Threw t).
Proof.
  cbv zeta. split; [|apply createErrorFromResponse_throws].
  intros text Htext.
  unfold mapped_statuses, spec_variant, spec_table.
  cbn [map fst snd find In].
  switch_on_status; built_from Htext;
    repeat match goal with |- _ /\ _ => split end;
    try reflexivity; try (intros H; try lia; repeat split; f_equal; lia).
Qed.

(** The table at an unmapped status, 418. *)
Lemma createErrorFromResponse_table_witness :
  exists e,
    createErrorFromResponse Mock.prompt
      (Mock.response 418 "I'm a teapot" [] 0 "") (Some (JObj []))
    = Returned e /\
    message e = "I'm a teapot" /\
    kind e = APIError /\ status e = Some 418 /\
    code e = Some "API_ERROR" /\ details e = Some (JObj []).
Proof.
  destruct (proj1 (createErrorFromResponse_table Mock.prompt
                     (Mock.response 418 "I'm a teapot" [] 0 "")
                     (Some (JObj [])))
              "I'm a teapot" eq_refl)
    as (e & He & Hm & _ & _ & _ & _ & _ & _ & Hrest).
  exists e. split; [exact He|]. split; [exact Hm|].
  apply Hrest. cbn. intuition lia.
Defined.



(** C9, as stated, fails: a 401 response whose body has no message
    yields an Authentication error that carries the response's status
    text, not the class's default message. *)
Lemma createErrorFromResponse_auth_default_counterexample :
  get_prop (Some (JObj [])) "message" = None /\
  exists e,
    createErrorFromResponse Mock.prompt
      (Mock.response 401 "Unauthorized" [] 0 "") (Some (JObj []))
    = Returned e /\
    kind e = AuthenticationError /\
    message e = "Unauthorized" /\
    message e <> "Invalid or missing API key".
Proof.
  split; [reflexivity|]. eexists. split; [reflexivity|].
  repeat split. cbn. discriminate.
Qed.

(** C9, amended. For a 401 or 403 response whose body has no message,
    the classifier constructs an Authentication error and always hands
    it a message: the body's [detail] field when it has one, else the
    response's status text when it is not empty, else [Unknown error];
    the error carries the string form of that message. The default
    [Invalid or missing API key] is what the class uses when it is
    constructed without a message. *)
Theorem createErrorFromResponse_auth_message
    (w : World) (response : Response.t) (responseBody : option json) :
  Response.status response = 401 \/ Response.status response = 403 ->
  truthy (get_prop responseBody "message") = false ->
  let built text :=
    exists e, createErrorFromResponse w response responseBody = Returned e /\
              kind e = AuthenticationError /\ message e = text in
  let d := get_prop responseBody "detail" in
  let reason := Response.statusText response in
  createErrorFromResponse w response responseBody
  = VectorcacheAuthenticationError w
      (Some (response_message response responseBody)) /\
  (forall v text, d = Some v -> truthy v = true ->
                  ToString w v = Returned text -> built text) /\
  (truthy d = false -> reason <> "" -> built reason) /\
  (truthy d = false -> reason = "" -> built "Unknown error") /\
  (exists e0, VectorcacheAuthenticationError w None = Returned e0 /\
              message e0 = "Invalid or missing API key").
Proof.
  intros Hs Hm. cbv zeta.
  destruct (resolved_message_order
              (get_prop responseBody "message")
              (get_prop responseBody "detail")
              (Response.statusText response)) as (_ & Hd & Hr & Hu).
  cbv zeta in Hd, Hr, Hu.
  fold (response_message response responseBody) in Hd, Hr, Hu.
  assert (Hauth : forall text,
             ToString w (response_message response responseBody)
             = Returned text ->
             exists e,
               createErrorFromResponse w response responseBody = Returned e /\
               kind e = AuthenticationError /\ message e = text).
  { intros text Htext.
    switch_on_status; try lia; built_from Htext; split; reflexivity. }
  split; [|split; [|split; [|split]]].
  - switch_on_status; try lia; reflexivity.
  - intros v text Hv Ht Htext. apply Hauth.
    rewrite Hv in Hd. specialize (Hd Hm Ht). injection Hd as ->. exact Htext.
  - intros H2 H3. apply Hauth. now rewrite (Hr Hm H2 H3).
  - intros H2 H3. apply Hauth. now rewrite (Hu Hm H2 H3).
  - eexists. split; reflexivity.
Qed.

Lemma createErrorFromResponse_auth_message_witness :
  exists e,
    createErrorFromResponse Mock.prompt
      (Mock.response 403 "" [] 0 "") (Some (JObj []))
    = Returned e /\
    kind e = AuthenticationError /\ message e = "Unknown error".
Proof.
  apply (createErrorFromResponse_auth_message Mock.prompt
           (Mock.response 403 "" [] 0 "") (Some (JObj [])));
    first [ now right | reflexivity ].
Defined.

(** What the factory makes of the [Retry-After] header of a 429. *)
Lemma createErrorFromResponse_429 w response responseBody text :
  Response.status response = 429 ->
  ToString w (response_message response responseBody) = Returned text ->
  exists e,
    createErrorFromResponse w response responseBody = Returned e /\
    kind e = RateLimitError /\
    retryAfter e
    = match Response.headers response "Retry-After" with
      | Some header => if truthy header then Some (parseInt header 10) else None
      | None => None
      end.
Proof.
  intros Hs Htext.
  switch_on_status; try lia; built_from Htext; split; reflexivity.
Qed.

(** C7, as stated, fails: a 429 response whose [Retry-After] header is
    present but holds no integer yields a retry-after that is there, and
    is [NaN]. *)
Lemma createErrorFromResponse_retryAfter_counterexample :
  Response.headers
    (Mock.response 429 "Too Many Requests" [("Retry-After", "soon")] 0 "")
    "Retry-After" = Some "soon" /\
  parseInt "soon" 10 = NaN /\
  exists e,
    createErrorFromResponse Mock.prompt
      (Mock.response 429 "Too Many Requests" [("Retry-After", "soon")] 0 "")
      (Some (JObj []))
    = Returned e /\
    retryAfter e = Some NaN /\
    retryAfter e <> None.
Proof.
  split; [reflexivity|]. split; [reflexivity|].
  eexists. split; [reflexivity|]. split; [reflexivity|].
  cbn. discriminate.
Qed.

(** C7, amended. For a 429 response the classifier builds a RateLimit
    error whose retry-after is absent when the [Retry-After] header is
    missing or empty, and is otherwise [parseInt] of the header in
    radix 10: the number [n] for a header that is the decimal numeral
    of an integer [n] from 0 to 2^53, the nearest Number for the
    numeral of a larger integer (of up to 20 digits), and [NaN] for a
    header that does not start with white space, a sign or a digit. *)
Theorem createErrorFromResponse_retryAfter
    (w : World) (response : Response.t) (responseBody : option json)
    (text : string) :
  Response.status response = 429 ->
  ToString w (response_message response responseBody) = Returned text ->
  let h := Response.headers response "Retry-After" in
  exists e,
    createErrorFromResponse w response responseBody = Returned e /\
    kind e = RateLimitError /\
    (h = None -> retryAfter e = None) /\
    (h = Some "" -> retryAfter e = None) /\
    (forall v, h = Some v -> v <> "" -> retryAfter e = Some (parseInt v 10)) /\
    (forall n, 0 <= n <= 2 ^ 53 -> h = Some (numeral n) ->
               retryAfter e = Some (Fin n)) /\
    (forall n, 2 ^ 53 < n < 10 ^ 20 -> h = Some (numeral n) ->
               retryAfter e = Some (to_double n)) /\
    (forall c rest, h = Some (String c rest) -> not_numeric_start c = true ->
                    retryAfter e = Some NaN).
Proof.
  intros Hs Htext. cbv zeta.
  destruct (createErrorFromResponse_429 _ _ _ _ Hs Htext) as (e & He & Hk & Hr).
  exists e. split; [exact He|]. split; [exact Hk|]. rewrite Hr.
  assert (Hv : forall v, Response.headers response "Retry-After" = Some v ->
                         v <> "" ->
                         match Response.headers response "Retry-After" with
                         | Some header =>
                             if truthy header then Some (parseInt header 10)
                             else None
                         | None => None
                         end = Some (parseInt v 10)).
  { intros v -> Hne. apply truthy_string_true in Hne. now rewrite Hne. }
  assert (Hnum : forall n, numeral n <> "").
  { intro n. rewrite <- (append_empty_r (numeral n)).
    apply numeral_nonempty. }
  repeat split.
  - now intros ->.
  - now intros ->.
  - exact Hv.
  - intros n Hn Hh. rewrite (Hv _ Hh (Hnum n)).
    rewrite parseInt_numeral; [reflexivity|]. unfold safe_integer. lia.
  - intros n Hn Hh. rewrite (Hv _ Hh (Hnum n)).
    rewrite <- (append_empty_r (numeral n)).
    rewrite parseInt_numeral_prefix by reflexivity.
    destruct (Z.eqb_spec n 0); [lia | reflexivity].
  - intros c rest Hh Hc. rewrite (Hv _ Hh) by discriminate.
    now rewrite parseInt_not_numeric.
Qed.

(** The specification's example: [Retry-After: 120] gives 120. *)
Lemma createErrorFromResponse_retryAfter_witness :
  exists e,
    createErrorFromResponse Mock.prompt
      (Mock.response 429 "Too Many Requests" [("Retry-After", "120")] 0 "")
      (Some (JObj []))
    = Returned e /\
    retryAfter e = Some (Fin 120).
Proof.
  destruct (createErrorFromResponse_retryAfter Mock.prompt
              (Mock.response 429 "Too Many Requests"
                 [("Retry-After", "120")] 0 "")
              (Some (JObj [])) "Too Many Requests" eq_refl eq_refl)
    as (e & He & _ & _ & _ & _ & Hn & _).
  exists e. split; [exact He|].
  apply (Hn 120); [lia | reflexivity].
Defined.

(* ================================================================== *)
(** ** The dispatcher ([makeRequest]) *)
(* ================================================================== *)

Lemma leb_add_l (p n m : Z) : (p + n <=? p + m) = (n <=? m).
Proof. destruct (Z.leb_spec n m), (Z.leb_spec (p + n) (p + m)); lia. Qed.

Lemma fetches_app (a b : list Event) :
  fetches (a ++ b) = (fetches a ++ fetches b)%list.
Proof. apply flat_map_app. Qed.

Lemma logs_app (a b : list Event) : logs (a ++ b) = (logs a ++ logs b)%list.
Proof. apply flat_map_app. Qed.

Ltac unfold_run :=
  unfold makeRequest, makeRequest_try, makeRequest_catch, try_catch,
    throw_new, bind, lift, log, emit, setTimeout, clearTimeout, await,
    throw, ret;
  cbv zeta.

Ltac simpl_run :=
  cbn -[Z.leb Z.add Z.max timer_delay Number_toString numeral
        createErrorFromResponse parse_body resolved_timeout request_init
        append levels fetches logs In];
  rewrite ?leb_add_l.

(** Bring the hypotheses about the platform in line with the case at
    hand, and drop the cases they exclude. *)
Ltac settle_run :=
  repeat match goal with
         | H : true = false |- _ => discriminate H
         | H : false = true |- _ => discriminate H
         | H : Rejected _ = Fulfilled _ |- _ => discriminate H
         | H : Fulfilled _ = Rejected _ |- _ => discriminate H
         | H : Returned _ = Threw _ |- _ => discriminate H
         | H : Threw _ = Returned _ |- _ => discriminate H
         | H : Fulfilled _ = Fulfilled _ |- _ => inversion H; subst; clear H
         | H : Rejected _ = Rejected _ |- _ => inversion H; subst; clear H
         | H : Returned _ = Returned _ |- _ => inversion H; subst; clear H
         | H : Threw _ = Threw _ |- _ => inversion H; subst; clear H
         | H1 : ?x = Fulfilled _, H2 : ?x = _ |- _ => rewrite H1 in H2
         | H1 : ?x = Rejected _, H2 : ?x = _ |- _ => rewrite H1 in H2
         | H1 : ?x = Returned _, H2 : ?x = _ |- _ => rewrite H1 in H2
         | H1 : ?x = Threw _, H2 : ?x = _ |- _ => rewrite H1 in H2
         | H : String.eqb ?a ?b = true, N : ?a <> ?b |- _ =>
             apply String.eqb_eq in H; contradiction
         end.

(** Case analysis along the control flow of a run: the log gates, the
    race between timer and promise, the settlements, what the
    classifier does, the caught value. *)
Ltac split_run :=
  simpl_run;
  repeat (match goal with
          | |- context [if ?b then _ else _] => destruct b eqn:?
          | |- context [match settlement ?p with _ => _ end] =>
              destruct (settlement p) eqn:?
          | |- context [match createErrorFromResponse ?w ?r ?b with _ => _ end] =>
              destruct (createErrorFromResponse w r b) eqn:?
          | |- context [match ?t with ThrowAPI _ => _ | _ => _ end] =>
              destruct t eqn:?
          end; simpl_run).

(** What [trace]s hold, once the pieces are known. *)
Ltac read_trace :=
  unfold logs, fetches; rewrite ?flat_map_app; cbn [flat_map app];
  rewrite ?List.app_nil_r, <- ?app_assoc.

Section DispatcherFacts.

Variable w : World.
Variable this : VectorcacheClient.

(** What the [catch] clause throws, whatever it caught. *)
Lemma makeRequest_catch_outcome (T : Z) (t : Thrown) (s : RunState) :
  fst (makeRequest_catch w this T t s) = Threw (ThrowAPI (caught_as w T t)).
Proof. unfold_run. unfold caught_as. split_run; reflexivity. Qed.

(** A body that cannot be serialised: the call ends there, with what
    the serialiser threw, before it has logged or sent anything. *)
Lemma makeRequest_unserialisable method endpoint body options s t :
  request_init w this method endpoint body = Threw t ->
  makeRequest w this method endpoint body options s = (Threw t, s).
Proof. intro H. unfold makeRequest, bind, lift. cbv zeta. now rewrite H. Qed.

Lemma request_init_cases method endpoint body :
  (forall b t, body = Some b -> truthy b = true ->
               JSON_stringify w b = Threw t ->
               request_init w this method endpoint body = Threw t) /\
  (forall b text, body = Some b -> truthy b = true ->
                  JSON_stringify w b = Returned text ->
                  request_init w this method endpoint body
                  = Returned (request_of this method endpoint (Some text))) /\
  (truthy body = false ->
   request_init w this method endpoint body
   = Returned (request_of this method endpoint None)).
Proof.
  unfold request_init. cbv zeta. repeat split.
  - intros b t -> Hb Hs. now rewrite Hb, Hs.
  - intros b text -> Hb Hs. now rewrite Hb, Hs.
  - destruct body as [b|]; cbn; [|reflexivity]. now intros ->.
Qed.

Lemma request_init_serialised method endpoint body sent :
  Serialised w body sent ->
  request_init w this method endpoint body
  = Returned (request_of this method endpoint sent).
Proof.
  intros [body' Hf | b text Hb Hs].
  - now apply request_init_cases.
  - now apply (proj1 (proj2 (request_init_cases method endpoint (Some b))) b).
Qed.

(** The three ways [request_init] can end. *)
Lemma request_init_ends method endpoint body :
  (exists b t, body = Some b /\ truthy b = true /\
               JSON_stringify w b = Threw t /\
               request_init w this method endpoint body = Threw t) \/
  (exists sent, Serialised w body sent /\
                request_init w this method endpoint body
                = Returned (request_of this method endpoint sent)).
Proof.
  destruct body as [b|].
  - destruct (truthy b) eqn:Hb.
    + destruct (JSON_stringify w b) as [text|t] eqn:Hs.
      * right. exists (Some text). split; [now constructor|].
        apply request_init_serialised. now constructor.
      * left. exists b, t. repeat split; auto.
        now apply (proj1 (request_init_cases method endpoint (Some b)) b t).
    + right. exists None. split; [now constructor|].
      apply request_init_serialised. now constructor.
  - right. exists None. split; [now constructor|].
    apply request_init_serialised. now constructor.
Qed.

Section Serialised.

Variable method : Method.
Variable endpoint : string.
Variable body : option json.
Variable options : option RequestOptions.t.
Variable call : FetchCall.
Hypothesis Hcall : request_init w this method endpoint body = Returned call.

(** The outcome of [makeRequest], read off the platform's behaviour. *)
Lemma makeRequest_outcome s :
  let T := resolved_timeout this options in
  let p := fetch w call in
  fst (makeRequest w this method endpoint body options s)
  = if timer_delay T <=? settles_after p
    then Threw (ThrowAPI (caught_as w T AbortError))
    else match settlement p with
         | Rejected t => Threw (ThrowAPI (caught_as w T t))
         | Fulfilled r =>
             match settlement (Response.text r) with
             | Rejected t => Threw (ThrowAPI (caught_as w T t))
             | Fulfilled txt =>
                 if Response.ok r then Returned (parse_body w txt)
                 else
                   match createErrorFromResponse w r
                           (Some (parse_body w txt)) with
                   | Returned e => Threw (ThrowAPI e)
                   | Threw t => Threw (ThrowAPI (caught_as w T t))
                   end
             end
         end.
Proof.
  unfold_run. rewrite Hcall. unfold caught_as.
  split_run; try reflexivity; try discriminate.
Qed.

(** One call of [makeRequest] is one call of [fetch]. *)
Lemma makeRequest_fetches s :
  fetches (trace (snd (makeRequest w this method endpoint body options s)))
  = (fetches (trace s) ++ [call])%list.
Proof.
  unfold_run. rewrite Hcall. split_run; read_trace; reflexivity.
Qed.

(** When the timer fires first, the request is aborted at that
    instant. *)
Lemma makeRequest_aborts s :
  timer_delay (resolved_timeout this options)
    <= settles_after (fetch w call) ->
  In EvAbort (trace (snd (makeRequest w this method endpoint body options s)))
  /\ now (snd (makeRequest w this method endpoint body options s))
     = Z.max (now s) (now s + timer_delay (resolved_timeout this options))
  /\ timer (snd (makeRequest w this method endpoint body options s)) = None.
Proof.
  intro H. apply Z.leb_le in H. unfold_run. rewrite Hcall.
  split_run; settle_run;
    (split; [ rewrite ?in_app_iff; cbn [In]; intuition
            | split; reflexivity ]).
Qed.

(** A call whose answer comes before the timer fires is never
    aborted. *)
Lemma makeRequest_no_abort s :
  settles_after (fetch w call)
    < timer_delay (resolved_timeout this options) ->
  In EvAbort (trace (snd (makeRequest w this method endpoint body options s)))
  -> In EvAbort (trace s).
Proof.
  intro Hlt. apply Z.leb_gt in Hlt. unfold_run. rewrite Hcall.
  split_run; settle_run;
    rewrite ?in_app_iff; cbn [In]; intuition discriminate.
Qed.

Lemma makeRequest_rejected s t :
  Rejects w (timer_delay (resolved_timeout this options)) call t ->
  fst (makeRequest w this method endpoint body options s)
  = Threw (ThrowAPI (caught_as w (resolved_timeout this options) t)).
Proof.
  intro H. rewrite makeRequest_outcome. cbv zeta.
  destruct H as [t Hlt Hp | r t Hlt Hp Hq];
    apply Z.leb_gt in Hlt; rewrite Hlt, Hp; [|rewrite Hq]; reflexivity.
Qed.

(** An exchange the platform completes in time: the timer is cleared
    when [fetch] has fulfilled, so the call lasts as long as answer
    and body take, is never aborted, and ends with what the client
    makes of the body. *)
Lemma makeRequest_delivered s r txt :
  Delivers w (timer_delay (resolved_timeout this options)) call r txt ->
  fst (makeRequest w this method endpoint body options s)
  = (if Response.ok r then Returned (parse_body w txt)
     else match createErrorFromResponse w r (Some (parse_body w txt)) with
          | Returned e => Threw (ThrowAPI e)
          | Threw t =>
              Threw (ThrowAPI (caught_as w (resolved_timeout this options) t))
          end) /\
  now (snd (makeRequest w this method endpoint body options s))
  = now s + settles_after (fetch w call) + settles_after (Response.text r) /\
  (In EvAbort (trace (snd (makeRequest w this method endpoint body options s)))
   -> In EvAbort (trace s)) /\
  timer (snd (makeRequest w this method endpoint body options s)) = None.
Proof.
  intros (Hlt & Hp & Hq). split.
  - rewrite makeRequest_outcome. cbv zeta.
    apply Z.leb_gt in Hlt. now rewrite Hlt, Hp, Hq.
  - split; [|split].
    + apply Z.leb_gt in Hlt. unfold_run. rewrite Hcall.
      split_run; settle_run; reflexivity.
    + apply makeRequest_no_abort. exact Hlt.
    + apply Z.leb_gt in Hlt. unfold_run. rewrite Hcall.
      split_run; settle_run; reflexivity.
Qed.

(** The abort timer when the call ends. *)
Lemma makeRequest_timer_left s :
  let D := timer_delay (resolved_timeout this options) in
  let p := fetch w call in
  timer (snd (makeRequest w this method endpoint body options s))
  = if D <=? settles_after p then None
    else match settlement p with
         | Rejected _ => Some (now s + D)
         | Fulfilled _ => None
         end.
Proof.
  cbv zeta. unfold_run. rewrite Hcall. split_run; settle_run; reflexivity.
Qed.

(** Whatever a call throws is an instance of the error classes. *)
Lemma makeRequest_throws_typed s t :
  fst (makeRequest w this method endpoint body options s) = Threw t ->
  exists e, t = ThrowAPI e.
Proof.
  intro Ht. rewrite makeRequest_outcome in Ht. cbv zeta in Ht.
  repeat match type of Ht with
         | context [if ?b then _ else _] => destruct b
         | context [match settlement ?p with _ => _ end] =>
             destruct (settlement p)
         | context [match createErrorFromResponse ?a ?b ?c with _ => _ end] =>
             destruct (createErrorFromResponse a b c)
         end;
    first [ discriminate | injection Ht as <-; eauto ].
Qed.

End Serialised.

Lemma parse_body_cases (txt : string) :
  (txt = "" -> parse_body w txt = JObj []) /\
  (txt <> "" -> JSON_parse w txt = None ->
   parse_body w txt = JObj [("message", JStr txt)]) /\
  (forall v, txt <> "" -> JSON_parse w txt = Some v -> parse_body w txt = v).
Proof.
  unfold parse_body. repeat split.
  - now intros ->.
  - intros Hne Hp. apply truthy_string_true in Hne. now rewrite Hne, Hp.
  - intros v Hne Hp. apply truthy_string_true in Hne. now rewrite Hne, Hp.
Qed.

End DispatcherFacts.

Section DispatcherClaims.

Variable w : World.
Variable this : VectorcacheClient.


(** C4, amended. The timeout used is the per-call override when it
    is there and not zero, else the client's; the abort timer is set
    for that duration when it lies between 1 and 2147483647 ms, and
    for 1 ms otherwise. When the timer fires before [fetch] has
    settled, the request is aborted at that instant and the call fails
    with a Timeout error whose message reports the timeout used. An
    abort signal met at any point of the exchange is reported as that
    Timeout error, never as a Network error. The timer is cleared once
    [fetch] has fulfilled: when the answer comes before the timer
    fires, the call is never aborted and lasts as long as answer and
    body take, however long the body takes. When [fetch] rejects
    before the timer fires, the timer is not cleared and is still
    pending when the call ends. *)
Theorem makeRequest_timeout method endpoint body options s sent :
  Serialised w body sent ->
  let T := resolved_timeout this options in
  let D := timer_delay T in
  let call := request_of this method endpoint sent in
  let r := makeRequest w this method endpoint body options s in
  let timed_out :=
    timeout_error ("Request timeout after " ++ Number_toString w T ++ "ms") in
  (forall t, opt_field options RequestOptions.timeout = Some t ->
             t <> 0 -> T = t) /\
  (truthy (opt_field options RequestOptions.timeout) = false ->
   T = timeout this) /\
  (1 <= T <= 2147483647 -> D = T) /\
  (T < 1 \/ 2147483647 < T -> D = 1) /\
  (D <= settles_after (fetch w call) ->
   fst r = Threw (ThrowAPI timed_out) /\
   In EvAbort (trace (snd r)) /\
   now (snd r) = Z.max (now s) (now s + D) /\
   timer (snd r) = None) /\
  (forall msg, Rejects w D call (ThrowError "AbortError" msg) ->
               fst r = Threw (ThrowAPI timed_out)) /\
  (forall response txt,
      Delivers w D call response txt ->
      now (snd r)
      = now s + settles_after (fetch w call)
        + settles_after (Response.text response) /\
      (In EvAbort (trace (snd r)) -> In EvAbort (trace s)) /\
      timer (snd r) = None) /\
  (forall t, settles_after (fetch w call) < D ->
             settlement (fetch w call) = Rejected t ->
             timer (snd r) = Some (now s + D)) /\
  kind timed_out = TimeoutError /\
  (Z.abs T <= 2 ^ 53 ->
   message timed_out = "Request timeout after " ++ numeral T ++ "ms").
Proof.
  intro Hsent. cbv zeta.
  pose proof (request_init_serialised w this method endpoint body sent Hsent)
    as Hcall.
  split; [|split; [|split; [|split; [|split; [|split; [|split;
    [|split; [|split]]]]]]]].
  - intros t Ht Hnz. unfold resolved_timeout. rewrite Ht.
    unfold or_default, truthy, Truthy_Z.
    apply Z.eqb_neq in Hnz. now rewrite Hnz.
  - intro Hf. unfold resolved_timeout. now apply or_default_falsy.
  - apply timer_delay_in_range.
  - apply timer_delay_out_of_range.
  - intro Hle. split; [|now apply (makeRequest_aborts w this _ _ _ _ _ Hcall)].
    rewrite (makeRequest_outcome w this _ _ _ _ _ Hcall). cbv zeta.
    apply Z.leb_le in Hle. now rewrite Hle.
  - intros msg H.
    now rewrite (makeRequest_rejected w this _ _ _ _ _ Hcall _ _ H).
  - intros response txt H.
    now destruct (makeRequest_delivered w this _ _ _ _ _ Hcall s _ _ H)
      as (_ & Hnow & Habort & Htimer).
  - intros t Hlt Hp.
    rewrite (makeRequest_timer_left w this _ _ _ _ _ Hcall). cbv zeta.
    apply Z.leb_gt in Hlt. now rewrite Hlt, Hp.
  - reflexivity.
  - intro HT. cbn [message timeout_error].
    now rewrite Number_toString_safe.
Qed.

(** C5, amended. Whatever text a delivered response carries, the call
    ends with the body the client made of it, returned for a
    successful status and handed to the classifier otherwise: no
    parse failure reaches the caller. That body is the parsed
    document when the text parses, the object with the single field
    [message] holding the text when the text is not empty and does
    not parse, and the empty object when the text is empty (which is
    not handed to the parser). *)
Theorem makeRequest_body method endpoint body options s sent r txt :
  Serialised w body sent ->
  Delivers w (timer_delay (resolved_timeout this options))
    (request_of this method endpoint sent) r txt ->
  let used := parse_body w txt in
  let outcome := fst (makeRequest w this method endpoint body options s) in
  (Response.ok r = true -> outcome = Returned used) /\
  (Response.ok r = false ->
   forall e, createErrorFromResponse w r (Some used) = Returned e ->
             outcome = Threw (ThrowAPI e)) /\
  (Response.ok r = false ->
   forall t, createErrorFromResponse w r (Some used) = Threw t ->
             outcome
             = Threw (ThrowAPI
                 (network_error
                    "Network error: Cannot convert object to primitive value")))
  /\
  (txt <> "" -> JSON_parse w txt = None ->
   used = JObj [("message", JStr txt)]) /\
  (forall v, txt <> "" -> JSON_parse w txt = Some v -> used = v) /\
  (txt = "" -> used = JObj []).
Proof.
  intros Hsent H. cbv zeta.
  pose proof (request_init_serialised w this method endpoint body sent Hsent)
    as Hcall.
  destruct (parse_body_cases w txt) as (He & Hn & Hv).
  destruct (makeRequest_delivered w this _ _ _ _ _ Hcall s _ _ H)
    as (Hr & _).
  rewrite Hr.
  split; [|split; [|split; [|split; [|split]]]]; auto.
  - now intros ->.
  - intros -> e He'. now rewrite He'.
  - intros -> t Ht. rewrite Ht.
    now rewrite (createErrorFromResponse_throws_only _ _ _ _ Ht).
Qed.

End DispatcherClaims.

(* ================================================================== *)
(** ** The operations that need a project identifier *)
(* ================================================================== *)

Section ProjectIdFacts.

Variable w : World.
Variable this : VectorcacheClient.

(** A [GET] has no body to serialise. *)
Lemma request_init_get endpoint :
  request_init w this GET endpoint None
  = Returned (request_of this GET endpoint None).
Proof. reflexivity. Qed.

Lemma makeRequest_get_fetches endpoint options s :
  fetches (trace (snd (makeRequest w this GET endpoint None options s)))
  = (fetches (trace s) ++ [request_of this GET endpoint None])%list.
Proof. apply makeRequest_fetches, request_init_get. Qed.

Lemma getCacheStats_unresolved projectId options s :
  truthy (projectId ||| opt_field options RequestOptions.projectId
            ||| defaultProjectId this) = false ->
  getCacheStats w this projectId options s = (Threw (ThrowAPI missing_id), s).
Proof. intro H. unfold getCacheStats. cbv zeta. now rewrite H. Qed.

Lemma findSimilarQueries_unresolved query projectId options s :
  truthy (projectId ||| opt_field options RequestOptions.projectId
            ||| defaultProjectId this) = false ->
  findSimilarQueries w this query projectId options s
  = (Threw (ThrowAPI missing_id), s).
Proof. intro H. unfold findSimilarQueries. cbv zeta. now rewrite H. Qed.

Lemma getCacheStats_resolved projectId options v :
  projectId ||| opt_field options RequestOptions.projectId
    ||| defaultProjectId this = Some v ->
  v <> "" ->
  getCacheStats w this projectId options
  = makeRequest w this GET ("/v1/cache/projects/" ++ v ++ "/stats")
      None options.
Proof.
  intros H Hv. unfold getCacheStats. cbv zeta. rewrite H.
  apply truthy_string_true in Hv. cbn. now rewrite Hv.
Qed.

Lemma findSimilarQueries_resolved query projectId options v q s :
  projectId ||| opt_field options RequestOptions.projectId
    ||| defaultProjectId this = Some v ->
  v <> "" ->
  encodeURIComponent w query = Returned q ->
  findSimilarQueries w this query projectId options s
  = makeRequest w this GET
      ("/v1/cache/projects/" ++ v ++ "/similar?query=" ++ q)
      None options s.
Proof.
  intros H Hv Hq. unfold findSimilarQueries. cbv zeta. rewrite H.
  apply truthy_string_true in Hv. cbn [truthy Truthy_option]. rewrite Hv.
  cbn [negb]. unfold bind, lift. now rewrite Hq.
Qed.

(** A query that cannot be encoded: the call ends there, with what
    the encoder threw, before anything is logged or sent. *)
Lemma findSimilarQueries_unencodable query projectId options v t s :
  projectId ||| opt_field options RequestOptions.projectId
    ||| defaultProjectId this = Some v ->
  v <> "" ->
  encodeURIComponent w query = Threw t ->
  findSimilarQueries w this query projectId options s = (Threw t, s).
Proof.
  intros H Hv Hq. unfold findSimilarQueries. cbv zeta. rewrite H.
  apply truthy_string_true in Hv. cbn [truthy Truthy_option]. rewrite Hv.
  cbn [negb]. unfold bind, lift. now rewrite Hq.
Qed.

(** Where both operations send their request once the identifier [v]
    is resolved. *)
Lemma resolved_requests query projectId options v s :
  projectId ||| opt_field options RequestOptions.projectId
    ||| defaultProjectId this = Some v ->
  v <> "" ->
  fetches (trace (snd (getCacheStats w this projectId options s)))
  = (fetches (trace s)
       ++ [request_of this GET
             ("/v1/cache/projects/" ++ v ++ "/stats") None])%list /\
  (forall q, encodeURIComponent w query = Returned q ->
     fetches (trace (snd (findSimilarQueries w this query projectId
                            options s)))
     = (fetches (trace s)
          ++ [request_of this GET
                ("/v1/cache/projects/" ++ v ++ "/similar?query=" ++ q)
                None])%list) /\
  (forall t, encodeURIComponent w query = Threw t ->
     findSimilarQueries w this query projectId options s = (Threw t, s)).
Proof.
  intros Hid Hv. split; [|split].
  - rewrite (getCacheStats_resolved _ _ _ Hid Hv).
    apply makeRequest_get_fetches.
  - intros q Hq. rewrite (findSimilarQueries_resolved _ _ _ _ _ _ Hid Hv Hq).
    apply makeRequest_get_fetches.
  - intros t Ht. now apply (findSimilarQueries_unencodable _ _ _ v).
Qed.

(** C2, amended. The effective project identifier of [getCacheStats]
    and [findSimilarQueries] is the explicit argument, else the
    per-call override, else the client's default (an empty string
    counting as none). When none resolves, the call fails at once,
    having done nothing (no log line, no [fetch]), with an error of
    the generic class [VectorcacheAPIError] carrying the message
    [Project ID is required] and neither status nor code. When one
    resolves, [getCacheStats] issues exactly one [fetch], a [GET]
    whose path holds that identifier; so does [findSimilarQueries]
    when its query can be encoded, and when it cannot, the call fails
    with what the encoder threw, as it is, having issued no [fetch]. *)
Theorem project_id_resolution projectId options query s :
  let override := opt_field options RequestOptions.projectId in
  let id := projectId ||| override ||| defaultProjectId this in
  let stats := getCacheStats w this projectId options s in
  let similar := findSimilarQueries w this query projectId options s in
  (truthy projectId = true -> id = projectId) /\
  (truthy projectId = false -> truthy override = true -> id = override) /\
  (truthy projectId = false -> truthy override = false ->
   id = defaultProjectId this) /\
  (truthy id = false ->
   stats = (Threw (ThrowAPI missing_id), s) /\
   similar = (Threw (ThrowAPI missing_id), s) /\
   kind missing_id = APIError /\
   message missing_id = "Project ID is required" /\
   status missing_id = None /\ code missing_id = None) /\
  (forall v, id = Some v -> v <> "" ->
     fetches (trace (snd stats))
     = (fetches (trace s)
          ++ [request_of this GET
                ("/v1/cache/projects/" ++ v ++ "/stats") None])%list /\
     (forall q, encodeURIComponent w query = Returned q ->
        fetches (trace (snd similar))
        = (fetches (trace s)
             ++ [request_of this GET
                   ("/v1/cache/projects/" ++ v ++ "/similar?query=" ++ q)
                   None])%list) /\
     (forall t, encodeURIComponent w query = Threw t ->
        similar = (Threw t, s))).
Proof.
  cbv zeta. split; [|split; [|split; [|split]]].
  - intro H. now rewrite !jsor_truthy_l by (rewrite ?jsor_truthy_l; auto).
  - intros H1 H2. now rewrite (jsor_falsy_l _ _ H1), (jsor_truthy_l _ _ H2).
  - intros H1 H2. now rewrite (jsor_falsy_l _ _ H1), (jsor_falsy_l _ _ H2).
  - intro H. repeat split.
    + now apply getCacheStats_unresolved.
    + now apply findSimilarQueries_unresolved.
  - intros v Hid Hv. now apply resolved_requests.
Qed.

(** C10. An empty string given as the explicit project identifier is
    treated as no argument at all: both operations then behave, in
    every respect, as if it had been omitted. So the request goes to
    the project of the per-call override when there is one, else to
    the client's default project when there is one, and the call fails
    with [Project ID is required], as it does without identifier, when
    neither is there. No [fetch] these operations issue has an empty
    identifier in its path. *)
Theorem empty_project_id_is_absent options query s :
  let override := opt_field options RequestOptions.projectId in
  let stats := getCacheStats w this (Some "") options s in
  let similar := findSimilarQueries w this query (Some "") options s in
  let to_project v :=
    fetches (trace (snd stats))
    = (fetches (trace s)
         ++ [request_of this GET
               ("/v1/cache/projects/" ++ v ++ "/stats") None])%list /\
    (forall q, encodeURIComponent w query = Returned q ->
       fetches (trace (snd similar))
       = (fetches (trace s)
            ++ [request_of this GET
                  ("/v1/cache/projects/" ++ v ++ "/similar?query=" ++ q)
                  None])%list) in
  stats = getCacheStats w this None options s /\
  similar = findSimilarQueries w this query None options s /\
  (forall v, override = Some v -> v <> "" -> to_project v) /\
  (forall v, truthy override = false -> defaultProjectId this = Some v ->
             v <> "" -> to_project v) /\
  (truthy override = false -> truthy (defaultProjectId this) = false ->
   stats = (Threw (ThrowAPI missing_id), s) /\
   similar = (Threw (ThrowAPI missing_id), s) /\
   getCacheStats w this None options s = (Threw (ThrowAPI missing_id), s) /\
   findSimilarQueries w this query None options s
   = (Threw (ThrowAPI missing_id), s)) /\
  (forall projectId c,
      In c (fetches (trace (snd (getCacheStats w this projectId options s)))) ->
      In c (fetches (trace s)) \/
      exists v, v <> "" /\
                url c = baseUrl this ++ "/v1/cache/projects/" ++ v ++ "/stats") /\
  (forall projectId c,
      In c (fetches (trace (snd (findSimilarQueries w this query projectId
                                   options s)))) ->
      In c (fetches (trace s)) \/
      exists v q, v <> "" /\ encodeURIComponent w query = Returned q /\
                  url c = baseUrl this ++ "/v1/cache/projects/" ++ v
                            ++ "/similar?query=" ++ q).
Proof.
  cbv zeta.
  assert (Hover : forall v,
             opt_field options RequestOptions.projectId = Some v -> v <> "" ->
             Some "" ||| opt_field options RequestOptions.projectId
               ||| defaultProjectId this = Some v).
  { intros v Ho Hv. apply truthy_string_true in Hv.
    change (opt_field options RequestOptions.projectId
              ||| defaultProjectId this = Some v).
    rewrite Ho. unfold jsor. cbn [truthy Truthy_option]. now rewrite Hv. }
  assert (Hdef : forall v,
             truthy (opt_field options RequestOptions.projectId) = false ->
             defaultProjectId this = Some v ->
             Some "" ||| opt_field options RequestOptions.projectId
               ||| defaultProjectId this = Some v).
  { intros v Ho Hd.
    change (opt_field options RequestOptions.projectId
              ||| defaultProjectId this = Some v).
    unfold jsor. now rewrite Ho. }
  assert (Hnone : forall projectId,
             truthy projectId = false ->
             truthy (opt_field options RequestOptions.projectId) = false ->
             truthy (defaultProjectId this) = false ->
             truthy (projectId ||| opt_field options RequestOptions.projectId
                       ||| defaultProjectId this) = false).
  { intros projectId Hp Ho Hd. unfold jsor. rewrite Hp, Ho. exact Hd. }
  split; [reflexivity|]. split; [reflexivity|].
  split; [|split; [|split; [|split]]].
  - intros v Ho Hv.
    destruct (resolved_requests query _ _ _ s (Hover v Ho Hv) Hv)
      as (H1 & H2 & _).
    now split.
  - intros v Ho Hd Hv.
    destruct (resolved_requests query _ _ _ s (Hdef v Ho Hd) Hv)
      as (H1 & H2 & _).
    now split.
  - intros Ho Hd. repeat split;
      first [ apply getCacheStats_unresolved
            | apply findSimilarQueries_unresolved ];
      now apply Hnone.
  - intros projectId c Hc.
    destruct (truthy (projectId ||| opt_field options RequestOptions.projectId
                        ||| defaultProjectId this)) eqn:Hid.
    + apply truthy_option_some in Hid. destruct Hid as (v & Hid & Hv).
      apply truthy_string_true in Hv.
      rewrite (getCacheStats_resolved _ _ _ Hid Hv),
        makeRequest_get_fetches in Hc.
      apply in_app_or in Hc. destruct Hc as [Hc|[<-|[]]]; [now left|].
      right. exists v. split; [assumption | reflexivity].
    + rewrite (getCacheStats_unresolved _ _ _ Hid) in Hc. now left.
  - intros projectId c Hc.
    destruct (truthy (projectId ||| opt_field options RequestOptions.projectId
                        ||| defaultProjectId this)) eqn:Hid.
    + apply truthy_option_some in Hid. destruct Hid as (v & Hid & Hv).
      apply truthy_string_true in Hv.
      destruct (encodeURIComponent w query) as [q|t] eqn:Hq.
      * rewrite (findSimilarQueries_resolved _ _ _ _ _ _ Hid Hv Hq),
          makeRequest_get_fetches in Hc.
        apply in_app_or in Hc. destruct Hc as [Hc|[<-|[]]]; [now left|].
        right. exists v, q. repeat split; assumption.
      * rewrite (findSimilarQueries_unencodable _ _ _ _ _ _ Hid Hv Hq) in Hc.
        now left.
    + rewrite (findSimilarQueries_unresolved _ _ _ _ Hid) in Hc. now left.
Qed.

End ProjectIdFacts.

(* ================================================================== *)
(** ** Construction *)
(* ================================================================== *)

(** C6. Constructing a client fails exactly when the credential is
    absent or empty, and does nothing to the outside world either way
    (no [fetch]). With a non-empty credential it succeeds: the
    credential and the default project identifier are taken over, and
    each of base endpoint, timeout and log level is the given value,
    or its default ([https://api.vectorcache.com], 30000, [warn]) when
    omitted. *)
Theorem new_VectorcacheClient_requires_apiKey
    (config : VectorcacheConfig.t) (s : RunState) :
  let r := new_VectorcacheClient config s in
  let key := VectorcacheConfig.apiKey config in
  snd r = s /\
  ((exists t, fst r = Threw t) <-> (key = None \/ key = Some "")) /\
  (key = None \/ key = Some "" ->
   fst r = Threw (ThrowError "Error" "API key is required")) /\
  (forall k, key = Some k -> k <> "" ->
     exists c,
       fst r = Returned c /\
       apiKey c = k /\
       defaultProjectId c = VectorcacheConfig.projectId config /\
       (VectorcacheConfig.baseUrl config = None ->
        baseUrl c = "https://api.vectorcache.com") /\
       (VectorcacheConfig.timeout config = None -> timeout c = 30000) /\
       (VectorcacheConfig.logLevel config = None -> logLevel c = warn) /\
       (forall u, VectorcacheConfig.baseUrl config = Some u -> u <> "" ->
                  baseUrl c = u) /\
       (forall t, VectorcacheConfig.timeout config = Some t -> t <> 0 ->
                  timeout c = t) /\
       (forall l, VectorcacheConfig.logLevel config = Some l ->
                  logLevel c = l)).
Proof.
  cbv zeta. unfold new_VectorcacheClient.
  destruct (VectorcacheConfig.apiKey config) as [key|];
    [destruct (truthy key) eqn:Hk; cbn [negb]|].
  - apply truthy_string_true in Hk.
    split; [reflexivity|]. split; [|split].
    + split.
      * intros (t & Ht). discriminate.
      * intros [H|H]; congruence.
    + intros [H|H]; congruence.
    + intros k' [= <-] _. eexists. split; [reflexivity|].
      cbn [apiKey baseUrl defaultProjectId timeout logLevel].
      repeat split.
      * now intros ->.
      * now intros ->.
      * now intros ->.
      * intros u -> Hu. apply truthy_string_true in Hu.
        unfold or_default. now rewrite Hu.
      * intros t -> Ht. apply Z.eqb_neq in Ht.
        unfold or_default, truthy, Truthy_Z. now rewrite Ht.
      * now intros l ->.
  - apply truthy_string_false in Hk. subst key.
    split; [reflexivity|]. split; [|split].
    + split; [auto | intros _; eexists; reflexivity].
    + reflexivity.
    + intros k [= <-] Hne. congruence.
  - split; [reflexivity|]. split; [|split].
    + split; [auto | intros _; eexists; reflexivity].
    + reflexivity.
    + intros k Hk. discriminate.
Qed.

Lemma new_VectorcacheClient_requires_apiKey_witness :
  exists c,
    fst (run (new_VectorcacheClient
                {| VectorcacheConfig.apiKey := Some "test";
                   VectorcacheConfig.baseUrl := None;
                   VectorcacheConfig.projectId := None;
                   VectorcacheConfig.timeout := None;
                   VectorcacheConfig.logLevel := None |}))
    = Returned c /\
    baseUrl c = "https://api.vectorcache.com" /\
    timeout c = 30000 /\ logLevel c = warn.
Proof.
  destruct (new_VectorcacheClient_requires_apiKey
              {| VectorcacheConfig.apiKey := Some "test";
                 VectorcacheConfig.baseUrl := None;
                 VectorcacheConfig.projectId := None;
                 VectorcacheConfig.timeout := None;
                 VectorcacheConfig.logLevel := None |} start)
    as (_ & _ & _ & H).
  destruct (H "test" eq_refl ltac:(discriminate))
    as (c & Hc & _ & _ & Hb & Ht & Hl & _).
  exists c. repeat split; auto.
Defined.

(* ================================================================== *)
(** ** Runs against canned responses *)
(* ================================================================== *)

(** C2, as stated, fails: with no identifier anywhere, both operations
    fail before any [fetch], but the error is of the generic class, not
    a Validation error. *)
Lemma getCacheStats_missing_id_counterexample :
  run (getCacheStats Mock.empty_ok Mock.client None None)
  = (Threw (ThrowAPI missing_id), start) /\
  run (findSimilarQueries Mock.empty_ok Mock.client "hello" None None)
  = (Threw (ThrowAPI missing_id), start) /\
  kind missing_id = APIError /\
  name missing_id = "VectorcacheAPIError" /\
  kind missing_id <> ValidationError.
Proof. repeat split; try reflexivity. discriminate. Qed.

(** With a default project identifier configured and none given, the
    request goes to that project. *)
Lemma project_id_resolution_witness :
  fetches (trace (snd (run (getCacheStats Mock.empty_ok
                              (setDefaultProjectId Mock.client "proj-1")
                              None None))))
  = [ {| url := "https://api.test.com/v1/cache/projects/proj-1/stats";
         method := GET;
         req_headers := [ ("Authorization", "Bearer test-api-key");
                          ("Content-Type", "application/json");
                          ("User-Agent", "vectorcache-js/0.1.0") ];
         req_body := None |} ].
Proof.
  destruct (project_id_resolution Mock.empty_ok
              (setDefaultProjectId Mock.client "proj-1")
              None None "hello" start) as (_ & _ & _ & _ & H).
  destruct (H "proj-1" eq_refl ltac:(discriminate)) as [H1 _].
  exact H1.
Defined.

(** An empty identifier with an override: the request goes to the
    project of the override. *)
Lemma empty_project_id_is_absent_witness :
  fetches (trace (snd (run (getCacheStats Mock.empty_ok Mock.client (Some "")
                              (Some {| RequestOptions.projectId := Some "p-2";
                                       RequestOptions.timeout := None |})))))
  = [ {| url := "https://api.test.com/v1/cache/projects/p-2/stats";
         method := GET;
         req_headers := [ ("Authorization", "Bearer test-api-key");
                          ("Content-Type", "application/json");
                          ("User-Agent", "vectorcache-js/0.1.0") ];
         req_body := None |} ].
Proof.
  destruct (empty_project_id_is_absent Mock.empty_ok Mock.client
              (Some {| RequestOptions.projectId := Some "p-2";
                       RequestOptions.timeout := None |})
              "hello" start) as (_ & _ & H & _).
  destruct (H "p-2" eq_refl ltac:(discriminate)) as [H1 _]. exact H1.
Defined.



(** C4, as stated, fails: the call below lasts 60010 ms under a timeout
    of 30000 ms, is never aborted, and succeeds. *)
Lemma makeRequest_timeout_counterexample :
  resolved_timeout Mock.client None = 30000 /\
  fst (run (health Mock.slow_body Mock.client)) = Returned (JObj []) /\
  now (snd (run (health Mock.slow_body Mock.client))) = 60010 /\
  30000 < now (snd (run (health Mock.slow_body Mock.client))) /\
  ~ In EvAbort (trace (snd (run (health Mock.slow_body Mock.client)))).
Proof.
  split; [reflexivity|]. split; [reflexivity|]. split; [reflexivity|].
  split; [reflexivity|].
  cbn. intuition discriminate.
Qed.

(** A server that has not answered when the timeout elapses: the call
    is aborted and fails with the Timeout error naming the duration. *)
Lemma makeRequest_timeout_witness :
  fst (run (health Mock.stalled Mock.client))
  = Threw (ThrowAPI
      {| kind := TimeoutError; name := "VectorcacheTimeoutError";
         message := "Request timeout after 30000ms";
         status := Some 408; code := Some "TIMEOUT_ERROR";
         details := None; retryAfter := None |}) /\
  In EvAbort (trace (snd (run (health Mock.stalled Mock.client)))) /\
  now (snd (run (health Mock.stalled Mock.client))) = 30000 /\
  timer (snd (run (health Mock.stalled Mock.client))) = None.
Proof.
  destruct (makeRequest_timeout Mock.stalled Mock.client
              GET "/health" None None start None
              (nothing_to_send _ None eq_refl))
    as (_ & _ & _ & _ & H & _).
  apply H. vm_compute. discriminate.
Defined.

(** C5, as stated, fails: an empty body is not valid JSON, yet it is
    not wrapped into a message object; the call returns the empty
    object. *)
Lemma makeRequest_empty_body_counterexample :
  Delivers Mock.empty_ok (timer_delay (resolved_timeout Mock.client None))
    (request_of Mock.client GET "/health" None)
    (Mock.response 200 "OK" [] 5 "") "" /\
  JSON_parse Mock.empty_ok "" = None /\
  fst (run (health Mock.empty_ok Mock.client)) = Returned (JObj []) /\
  fst (run (health Mock.empty_ok Mock.client))
  <> Returned (JObj [("message", JStr "")]).
Proof.
  repeat split; try reflexivity.
  cbn. discriminate.
Qed.

(** A page of HTML in place of JSON: the call fails with the error the
    classifier makes of the wrapped text, here a Server error whose
    message is the page. *)
Lemma makeRequest_body_witness :
  fst (run (health Mock.bad_gateway Mock.client))
  = Threw (ThrowAPI
      {| kind := ServerError; name := "VectorcacheServerError";
         message := "<html>Bad Gateway</html>";
         status := Some 502; code := Some "SERVER_ERROR";
         details := None; retryAfter := None |}).
Proof.
  destruct (makeRequest_body Mock.bad_gateway Mock.client
              GET "/health" None None start None
              (Mock.response 502 "Bad Gateway" [] 5 Mock.bad_gateway_page)
              Mock.bad_gateway_page) as (_ & H & _).
  - now constructor.
  - repeat split; reflexivity.
  - apply H; reflexivity.
Defined.

(* ================================================================== *)
(** ** More on the classifier: what an error carries *)
(* ================================================================== *)

(** X1. The error built for a response reports the status of the
    response, with one exception: for a 403 it reports 401, the status
    its class fixes. *)
Theorem createErrorFromResponse_status
    (w : World) (response : Response.t) (responseBody : option json)
    (text : string) :
  ToString w (response_message response responseBody) = Returned text ->
  let s := Response.status response in
  exists e,
    createErrorFromResponse w response responseBody = Returned e /\
    (s <> 403 -> status e = Some s) /\
    (s = 403 -> status e = Some 401).
Proof.
  intro Htext. cbv zeta.
  switch_on_status; built_from Htext; split; intro H;
    first [ reflexivity | lia | f_equal; lia ].
Qed.

Lemma createErrorFromResponse_status_witness :
  exists e,
    createErrorFromResponse Mock.prompt
      (Mock.response 503 "Service Unavailable" [] 0 "") None
    = Returned e /\
    status e = Some 503.
Proof.
  destruct (createErrorFromResponse_status Mock.prompt
              (Mock.response 503 "Service Unavailable" [] 0 "") None
              "Service Unavailable" eq_refl) as (e & He & H & _).
  exists e. split; [exact He|]. apply H. cbn. lia.
Defined.

(** X2. The body of the response is kept, as the details of the error,
    for a 400 and for the statuses the [switch] does not name; for
    401, 403, 408, 429 and the four 5xx statuses it is dropped. *)
Theorem createErrorFromResponse_details
    (w : World) (response : Response.t) (responseBody : option json)
    (text : string) :
  ToString w (response_message response responseBody) = Returned text ->
  let s := Response.status response in
  exists e,
    createErrorFromResponse w response responseBody = Returned e /\
    (s = 400 \/ ~ In s mapped_statuses -> details e = responseBody) /\
    (In s mapped_statuses -> s <> 400 -> details e = None).
Proof.
  intro Htext. cbv zeta. unfold mapped_statuses, spec_table.
  cbn [map fst In].
  switch_on_status; built_from Htext; split; intros H; try intro H4;
    try reflexivity; exfalso; intuition lia.
Qed.

Lemma createErrorFromResponse_details_witness :
  exists e,
    createErrorFromResponse Mock.prompt
      (Mock.response 500 "Internal Server Error" [] 0 "")
      (Some (JObj [("trace", JStr "boom")]))
    = Returned e /\
    details e = None.
Proof.
  destruct (createErrorFromResponse_details Mock.prompt
              (Mock.response 500 "Internal Server Error" [] 0 "")
              (Some (JObj [("trace", JStr "boom")]))
              "Internal Server Error" eq_refl) as (e & He & _ & H).
  exists e. split; [exact He|]. apply H.
  - cbn. intuition lia.
  - cbn. lia.
Defined.

(** X3. Whatever the response, the error the classifier builds has the
    name and the code of its class, and a retry-after only if it is a
    RateLimit error. *)
Theorem createErrorFromResponse_signature
    (w : World) (response : Response.t) (responseBody : option json)
    (text : string) :
  ToString w (response_message response responseBody) = Returned text ->
  exists e,
    createErrorFromResponse w response responseBody = Returned e /\
    name e = class_name (kind e) /\
    code e = Some (class_code (kind e)) /\
    (retryAfter e <> None -> kind e = RateLimitError).
Proof.
  intro Htext.
  switch_on_status; built_from Htext; repeat split; cbn; congruence.
Qed.

Lemma createErrorFromResponse_signature_witness :
  exists e,
    createErrorFromResponse Mock.prompt
      (Mock.response 429 "" [("Retry-After", "7")] 0 "") None
    = Returned e /\
    name e = "VectorcacheRateLimitError" /\
    code e = Some "RATE_LIMIT_ERROR".
Proof.
  destruct (createErrorFromResponse_signature Mock.prompt
              (Mock.response 429 "" [("Retry-After", "7")] 0 "") None
              "Unknown error" eq_refl) as (e & He & Hn & Hc & Hk).
  exists e. split; [exact He|].
  assert (Hkind : kind e = RateLimitError).
  { apply Hk. injection He as <-. discriminate. }
  rewrite Hn, Hc, Hkind. split; reflexivity.
Defined.

(** X4. When the body of the response is not a JSON object (no body,
    [null], a boolean, a number, a string, an array), nothing of it
    reaches the message: the classifier returns an error whose message
    is the status text, or [Unknown error] when the status text is
    empty. *)
Theorem createErrorFromResponse_non_object_body
    (w : World) (response : Response.t) (responseBody : option json) :
  not_an_object responseBody = true ->
  exists e,
    createErrorFromResponse w response responseBody = Returned e /\
    message e = (if truthy (Response.statusText response)
                 then Response.statusText response
                 else "Unknown error").
Proof.
  intro H. apply createErrorFromResponse_returns.
  assert (Hm : forall k, get_prop responseBody k = None).
  { intro k. destruct responseBody as [[]|]; try reflexivity.
    discriminate. }
  unfold response_message. rewrite !Hm.
  change (None ||| None ||| Some (JStr (Response.statusText response)))
    with (Some (JStr (Response.statusText response))).
  cbn [or_default truthy Truthy_json].
  now destruct (truthy (Response.statusText response)).
Qed.

(** A server that answers 403 with the JSON string [Forbidden] as its
    body. *)
Lemma createErrorFromResponse_non_object_body_witness :
  exists e,
    createErrorFromResponse Mock.prompt
      (Mock.response 403 "" [] 0 "") (Some (JStr "Forbidden"))
    = Returned e /\
    message e = "Unknown error".
Proof.
  apply (createErrorFromResponse_non_object_body Mock.prompt
           (Mock.response 403 "" [] 0 "") (Some (JStr "Forbidden"))).
  reflexivity.
Defined.

(** X5. For a 429 response, a [Retry-After] header that begins with
    the decimal numeral of an integer from -2^53 to 2^53 gives that
    integer as the retry-after, whatever follows the numeral; for a
    numeral beyond that range, of up to 20 digits, it gives the
    nearest Number. White space before the numeral is skipped. *)
Theorem createErrorFromResponse_retryAfter_prefix
    (w : World) (response : Response.t) (responseBody : option json)
    (text : string) :
  Response.status response = 429 ->
  ToString w (response_message response responseBody) = Returned text ->
  let h := Response.headers response "Retry-After" in
  exists e,
    createErrorFromResponse w response responseBody = Returned e /\
    (forall z tail, Z.abs z <= 2 ^ 53 -> ends_numeral tail = true ->
                    h = Some (numeral z ++ tail) ->
                    retryAfter e = Some (Fin z)) /\
    (forall z tail, 2 ^ 53 < Z.abs z < 10 ^ 20 -> ends_numeral tail = true ->
                    h = Some (numeral z ++ tail) ->
                    retryAfter e = Some (to_double z)) /\
    (forall c rest, is_StrWhiteSpaceChar c = true ->
                    h = Some (String c rest) ->
                    retryAfter e = Some (parseInt rest 10)).
Proof.
  intros Hs Htext. cbv zeta.
  destruct (createErrorFromResponse_429 _ _ _ _ Hs Htext) as (e & He & _ & Hr).
  exists e. split; [exact He|]. rewrite Hr. split; [|split].
  - intros z tail Hz Ht ->.
    pose proof (numeral_nonempty z tail) as Hne.
    apply truthy_string_true in Hne. rewrite Hne.
    now rewrite parseInt_numeral_prefix_safe.
  - intros z tail Hz Ht ->.
    pose proof (numeral_nonempty z tail) as Hne.
    apply truthy_string_true in Hne. rewrite Hne.
    rewrite parseInt_numeral_prefix by assumption.
    destruct (Z.eqb_spec z 0) as [->|_]; [|reflexivity].
    destruct Hz as [Hz _]. vm_compute in Hz. discriminate.
  - intros c rest Hc ->. cbn [truthy Truthy_string].
    unfold parseInt. cbn [trim_start]. now rewrite Hc.
Qed.

(** A header that names a delay and a unit, a negative one, and one
    that no Number holds exactly. *)
Lemma createErrorFromResponse_retryAfter_prefix_witness :
  (exists e,
      createErrorFromResponse Mock.prompt
        (Mock.response 429 "Too Many Requests"
           [("Retry-After", "120 seconds")] 0 "") None
      = Returned e /\
      retryAfter e = Some (Fin 120)) /\
  (exists e,
      createErrorFromResponse Mock.prompt
        (Mock.response 429 "Too Many Requests"
           [("Retry-After", "-5")] 0 "") None
      = Returned e /\
      retryAfter e = Some (Fin (-5))) /\
  (exists e,
      createErrorFromResponse Mock.prompt
        (Mock.response 429 "Too Many Requests"
           [("Retry-After", "9007199254740993")] 0 "") None
      = Returned e /\
      retryAfter e = Some (Fin 9007199254740992)).
Proof.
  split; [|split].
  - destruct (createErrorFromResponse_retryAfter_prefix Mock.prompt
                (Mock.response 429 "Too Many Requests"
                   [("Retry-After", "120 seconds")] 0 "") None
                "Too Many Requests" eq_refl eq_refl) as (e & He & H & _).
    exists e. split; [exact He|].
    apply (H 120 " seconds");
      [vm_compute; discriminate | reflexivity | reflexivity].
  - destruct (createErrorFromResponse_retryAfter_prefix Mock.prompt
                (Mock.response 429 "Too Many Requests"
                   [("Retry-After", "-5")] 0 "") None
                "Too Many Requests" eq_refl eq_refl) as (e & He & H & _).
    exists e. split; [exact He|].
    apply (H (-5) ""); [vm_compute; discriminate | reflexivity | reflexivity].
  - destruct (createErrorFromResponse_retryAfter_prefix Mock.prompt
                (Mock.response 429 "Too Many Requests"
                   [("Retry-After", "9007199254740993")] 0 "") None
                "Too Many Requests" eq_refl eq_refl) as (e & He & _ & H & _).
    exists e. split; [exact He|].
    apply (H 9007199254740993 "");
      [vm_compute; split; reflexivity | reflexivity | reflexivity].
Defined.

(** X20. The classifier throws exactly when the message it resolved
    has no string form, and then it throws the [TypeError] of the
    conversion; this is what happens when the body's [message] is an
    object with a property named [toString]. *)
Theorem createErrorFromResponse_throws_iff
    (w : World) (response : Response.t) (responseBody : option json) :
  ((exists t, createErrorFromResponse w response responseBody = Threw t) <->
   ToString w (response_message response responseBody)
   = Threw (ThrowError "TypeError"
              "Cannot convert object to primitive value")) /\
  (forall t, createErrorFromResponse w response responseBody = Threw t ->
             t = ThrowError "TypeError"
                   "Cannot convert object to primitive value") /\
  (forall fields v,
      get_prop responseBody "message" = Some (JObj fields) ->
      assoc "toString" fields = Some v ->
      createErrorFromResponse w response responseBody
      = Threw (ThrowError "TypeError"
                 "Cannot convert object to primitive value")).
Proof.
  split; [|split].
  - split.
    + intros (t & Ht).
      destruct (ToString w (response_message response responseBody))
        as [text|t'] eqn:Htext.
      * destruct (createErrorFromResponse_returns _ _ _ _ Htext)
          as (e & He & _).
        congruence.
      * now rewrite (ToString_throws _ _ _ Htext).
    + intro H. eexists. apply createErrorFromResponse_throws. exact H.
  - apply createErrorFromResponse_throws_only.
  - intros fields v Hm Hts. apply createErrorFromResponse_throws.
    destruct (resolved_message_order
                (get_prop responseBody "message")
                (get_prop responseBody "detail")
                (Response.statusText response)) as (H & _).
    cbv zeta in H. fold (response_message response responseBody) in H.
    rewrite Hm in H. specialize (H eq_refl). injection H as ->.
    cbn [ToString]. now rewrite Hts.
Qed.

Lemma createErrorFromResponse_throws_iff_witness :
  createErrorFromResponse Mock.prompt
    (Mock.response 500 "Internal Server Error" [] 0 "") (Some Mock.odd_body)
  = Threw (ThrowError "TypeError" "Cannot convert object to primitive value").
Proof.
  apply (proj2 (proj2 (createErrorFromResponse_throws_iff Mock.prompt
                         (Mock.response 500 "Internal Server Error" [] 0 "")
                         (Some Mock.odd_body)))
           [("toString", JNum 0)] (JNum 0)); reflexivity.
Defined.

(* ================================================================== *)
(** ** More on the dispatcher: bodies, log lines, the timer *)
(* ================================================================== *)

Section DispatcherMore.

Variable w : World.
Variable this : VectorcacheClient.

(** X6. When a response with a failing status carries a body that is
    not empty and does not parse as JSON (a page of HTML, a line of
    plain text), the call fails with the error the classifier builds
    for the text wrapped in a message object, and the message of that
    error is the text itself. *)
Theorem makeRequest_unparsable_error_body
    method endpoint body options s sent r txt :
  Serialised w body sent ->
  Delivers w (timer_delay (resolved_timeout this options))
    (request_of this method endpoint sent) r txt ->
  Response.ok r = false ->
  txt <> "" ->
  JSON_parse w txt = None ->
  exists e,
    createErrorFromResponse w r (Some (JObj [("message", JStr txt)]))
    = Returned e /\
    message e = txt /\
    fst (makeRequest w this method endpoint body options s)
    = Threw (ThrowAPI e).
Proof.
  intros Hsent H Hok Hne Hp.
  pose proof (request_init_serialised w this method endpoint body sent Hsent)
    as Hcall.
  destruct (makeRequest_delivered w this _ _ _ _ _ Hcall s _ _ H)
    as (Hr & _).
  destruct (parse_body_cases w txt) as (_ & Hwrap & _).
  rewrite Hr, Hok, (Hwrap Hne Hp).
  destruct (createErrorFromResponse_returns w r
              (Some (JObj [("message", JStr txt)])) txt) as (e & He & Hm).
  { destruct (resolved_message_order (Some (JStr txt))
                (get_prop (Some (JObj [("message", JStr txt)])) "detail")
                (Response.statusText r)) as (Hfirst & _).
    apply truthy_string_true in Hne.
    specialize (Hfirst Hne). cbv zeta in Hfirst.
    change (Some (response_message r (Some (JObj [("message", JStr txt)])))
            = Some (JStr txt)) in Hfirst.
    injection Hfirst as ->. reflexivity. }
  exists e. rewrite He. auto.
Qed.

(** Every log line a call adds is at level [debug] or [error] and
    passes the client's threshold. *)
Lemma makeRequest_new_logs method endpoint body options s :
  exists new,
    logs (trace (snd (makeRequest w this method endpoint body options s)))
    = (logs (trace s) ++ new)%list /\
    Forall (fun entry =>
              (fst entry = debug \/ fst entry = error) /\
              levels (logLevel this) <= levels (fst entry)) new.
Proof.
  destruct (request_init_ends w this method endpoint body)
    as [(b & t & _ & _ & _ & Hthrow) | (sent & _ & Hcall)].
  - rewrite (makeRequest_unserialisable w this _ _ _ _ _ _ Hthrow).
    exists []. split; [now rewrite List.app_nil_r | constructor].
  - unfold_run. rewrite Hcall. split_run;
      (eexists; split;
       [ unfold logs; rewrite ?flat_map_app; cbn [flat_map app];
         rewrite <- ?app_assoc; reflexivity
       | cbn [app];
         repeat first [ apply Forall_nil | apply Forall_cons ];
         cbn [fst]; (split; [auto | now apply Z.leb_le]) ]).
Qed.

(** X7. The log lines of a call are lines at level [debug] or [error]
    that pass the threshold of the client, added after those already
    there; a client whose level is [none] logs nothing, and so does a
    client whose level is above [debug] for a call that succeeds. *)
Theorem makeRequest_log_threshold method endpoint body options s :
  let r := makeRequest w this method endpoint body options s in
  (exists new,
      logs (trace (snd r)) = (logs (trace s) ++ new)%list /\
      Forall (fun entry =>
                (fst entry = debug \/ fst entry = error) /\
                levels (logLevel this) <= levels (fst entry)) new) /\
  (logLevel this = none -> logs (trace (snd r)) = logs (trace s)) /\
  (logLevel this <> debug ->
   forall v, fst r = Returned v -> logs (trace (snd r)) = logs (trace s)).
Proof.
  cbv zeta. split; [apply makeRequest_new_logs|]. split.
  - intro Hnone.
    destruct (makeRequest_new_logs method endpoint body options s)
      as (new & -> & Hall).
    destruct new as [|[l line] new]; [now rewrite List.app_nil_r|].
    apply Forall_inv in Hall. cbn [fst] in Hall. rewrite Hnone in Hall.
    destruct Hall as ([-> | ->] & Hle); cbn in Hle; lia.
  - intros Hlevel v.
    assert (Hgate : (levels (logLevel this) <=? levels debug) = false).
    { apply Z.leb_gt. destruct (logLevel this); cbn; try lia. congruence. }
    destruct (request_init_ends w this method endpoint body)
      as [(b & t & _ & _ & _ & Hthrow) | (sent & _ & Hcall)].
    + now rewrite (makeRequest_unserialisable w this _ _ _ _ _ _ Hthrow).
    + unfold_run. rewrite Hcall, Hgate. split_run; try discriminate;
        read_trace; reflexivity.
Qed.

(** X8. Which lines a call logs, in terms of [log] itself: always the
    line announcing the request; then nothing more when the call times
    out; the line [Network error: ...] when the platform fails the
    exchange with another [Error]; and, when a response is delivered,
    the line [API request successful: ...] at level [debug] or the line
    [API request failed: ...] at level [error], according to its
    status, the latter followed by a [Network error: ...] line when
    the classifier throws. A call whose body cannot be serialised
    logs nothing. *)
Theorem makeRequest_logs method endpoint body options s :
  let T := resolved_timeout this options in
  let D := timer_delay T in
  let r := makeRequest w this method endpoint body options s in
  let announced :=
    snd (log this debug
           ("Making " ++ Method_toString method ++ " request to "
              ++ baseUrl this ++ endpoint)
           s) in
  (forall b t, body = Some b -> truthy b = true ->
               JSON_stringify w b = Threw t ->
               logs (trace (snd r)) = logs (trace s)) /\
  (forall sent, Serialised w body sent ->
     let call := request_of this method endpoint sent in
     (D <= settles_after (fetch w call) ->
      logs (trace (snd r)) = logs (trace announced)) /\
     (forall name text,
         Rejects w D call (ThrowError name text) ->
         name <> "AbortError" ->
         logs (trace (snd r))
         = logs (trace (snd (log this error ("Network error: " ++ text)
                               announced)))) /\
     (forall response txt,
         Delivers w D call response txt ->
         let failed :=
           snd (log this error
                  ("API request failed: "
                     ++ Number_toString w (Response.status response) ++ " "
                     ++ Response.statusText response)
                  announced) in
         (Response.ok response = true ->
          logs (trace (snd r))
          = logs (trace (snd (log this debug
                                ("API request successful: "
                                   ++ Number_toString w
                                        (Response.status response))
                                announced)))) /\
         (Response.ok response = false ->
          forall e,
            createErrorFromResponse w response (Some (parse_body w txt))
            = Returned e ->
            logs (trace (snd r)) = logs (trace failed)) /\
         (Response.ok response = false ->
          forall t,
            createErrorFromResponse w response (Some (parse_body w txt))
            = Threw t ->
            logs (trace (snd r))
            = logs (trace (snd (log this error
                                  ("Network error: "
                                     ++ "Cannot convert object to primitive value")
                                  failed)))))).
Proof.
  cbv zeta. split.
  - intros b t Hbody Hb Hs.
    rewrite (makeRequest_unserialisable w this _ _ _ _ s t); [reflexivity|].
    now apply (proj1 (request_init_cases w this method endpoint body) b t).
  - intros sent Hsent.
    pose proof (request_init_serialised w this method endpoint body sent Hsent)
      as Hcall.
    split; [|split].
    + intro H. apply Z.leb_le in H. unfold_run. rewrite Hcall.
      split_run; settle_run; read_trace; reflexivity.
    + intros name text H Hname.
      inversion H as [t Hlt Hp Heq | response t Hlt Hp Hq Heq]; subst t;
        apply Z.leb_gt in Hlt; unfold_run; rewrite Hcall;
        split_run; settle_run; read_trace; reflexivity.
    + intros response txt (Hlt & Hp & Hq).
      apply Z.leb_gt in Hlt. split; [|split].
      * intro Hok. unfold_run. rewrite Hcall.
        split_run; settle_run;
          try (rewrite Hok in *; discriminate);
          read_trace; reflexivity.
      * intros Hok e He. unfold_run. rewrite Hcall.
        split_run; settle_run;
          try (rewrite Hok in *; discriminate);
          read_trace; reflexivity.
      * intros Hok t Ht.
        pose proof (createErrorFromResponse_throws_only _ _ _ _ Ht) as ->.
        unfold_run. rewrite Hcall.
        split_run; settle_run;
          try (rewrite Hok in *; discriminate);
          read_trace; reflexivity.
Qed.

(** X9. A call aborts its request exactly when the abort timer fires
    before [fetch] has settled, and a call that aborted its request
    fails with the Timeout error. The timer is set for the resolved
    timeout when that lies between 1 and 2147483647 ms. *)
Theorem makeRequest_abort_iff method endpoint body options s sent :
  Serialised w body sent ->
  ~ In EvAbort (trace s) ->
  let T := resolved_timeout this options in
  let D := timer_delay T in
  let call := request_of this method endpoint sent in
  let r := makeRequest w this method endpoint body options s in
  (In EvAbort (trace (snd r)) <-> D <= settles_after (fetch w call)) /\
  (In EvAbort (trace (snd r)) ->
   fst r = Threw (ThrowAPI
             (timeout_error
                ("Request timeout after " ++ Number_toString w T ++ "ms")))) /\
  (1 <= T <= 2147483647 -> D = T).
Proof.
  intros Hsent Hs. cbv zeta.
  pose proof (request_init_serialised w this method endpoint body sent Hsent)
    as Hcall.
  assert (Hiff : In EvAbort
                   (trace (snd (makeRequest w this method endpoint body
                                  options s)))
                 <-> timer_delay (resolved_timeout this options)
                     <= settles_after
                          (fetch w (request_of this method endpoint sent))).
  { split.
    - intro Hin.
      destruct (Z.le_gt_cases (timer_delay (resolved_timeout this options))
                  (settles_after
                     (fetch w (request_of this method endpoint sent))))
        as [Hle | Hgt]; [assumption|].
      exfalso. apply Hs.
      now apply (makeRequest_no_abort w this _ _ _ options _ Hcall s).
    - intro Hle. now apply (makeRequest_aborts w this _ _ _ _ _ Hcall). }
  split; [exact Hiff|]. split; [|apply timer_delay_in_range].
  intro Hin. apply Hiff in Hin.
  rewrite (makeRequest_outcome w this _ _ _ _ _ Hcall). cbv zeta.
  apply Z.leb_le in Hin. now rewrite Hin.
Qed.

(** X10. The abort timer when a call ends: it is still pending when
    [fetch] itself rejected before the timer fired (the timer is
    cleared only once [fetch] has fulfilled), set to fire at the
    instant it was set for; in every other case none is pending. The
    timer is set for the resolved timeout when that lies between 1 and
    2147483647 ms. *)
Theorem makeRequest_timer method endpoint body options s sent :
  Serialised w body sent ->
  let T := resolved_timeout this options in
  let D := timer_delay T in
  let p := fetch w (request_of this method endpoint sent) in
  let r := makeRequest w this method endpoint body options s in
  (D <= settles_after p -> timer (snd r) = None) /\
  (forall t, settles_after p < D -> settlement p = Rejected t ->
             timer (snd r) = Some (now s + D)) /\
  (forall response, settles_after p < D -> settlement p = Fulfilled response ->
                    timer (snd r) = None) /\
  (1 <= T <= 2147483647 -> D = T).
Proof.
  intro Hsent. cbv zeta.
  pose proof (request_init_serialised w this method endpoint body sent Hsent)
    as Hcall.
  rewrite (makeRequest_timer_left w this _ _ _ _ _ Hcall). cbv zeta.
  split; [|split; [|split]].
  - intro H. apply Z.leb_le in H. now rewrite H.
  - intros t Hlt Hp. apply Z.leb_gt in Hlt. now rewrite Hlt, Hp.
  - intros response Hlt Hp. apply Z.leb_gt in Hlt. now rewrite Hlt, Hp.
  - apply timer_delay_in_range.
Qed.

(** X21. A resolved timeout below 1 ms or above 2147483647 ms sets
    the abort timer for 1 ms: every exchange that takes at least that
    long is aborted after 1 ms and fails with the Timeout error, whose
    message names the timeout as it was given. *)
Theorem makeRequest_timer_clamp method endpoint body options s sent :
  Serialised w body sent ->
  let T := resolved_timeout this options in
  let r := makeRequest w this method endpoint body options s in
  T < 1 \/ 2147483647 < T ->
  1 <= settles_after (fetch w (request_of this method endpoint sent)) ->
  fst r = Threw (ThrowAPI
            (timeout_error
               ("Request timeout after " ++ Number_toString w T ++ "ms"))) /\
  In EvAbort (trace (snd r)) /\
  now (snd r) = now s + 1.
Proof.
  intros Hsent. cbv zeta. intros HT Hp.
  pose proof (request_init_serialised w this method endpoint body sent Hsent)
    as Hcall.
  pose proof (timer_delay_out_of_range _ HT) as HD.
  destruct (makeRequest_aborts w this _ _ _ options _ Hcall s)
    as (Hin & Hnow & _); [now rewrite HD|].
  split; [|split; [exact Hin | rewrite Hnow, HD; lia]].
  rewrite (makeRequest_outcome w this _ _ _ _ _ Hcall). cbv zeta.
  rewrite HD. apply Z.leb_le in Hp. now rewrite Hp.
Qed.

End DispatcherMore.

Lemma makeRequest_unparsable_error_body_witness :
  exists e,
    createErrorFromResponse Mock.bad_gateway
      (Mock.response 502 "Bad Gateway" [] 5 Mock.bad_gateway_page)
      (Some (JObj [("message", JStr Mock.bad_gateway_page)]))
    = Returned e /\
    message e = "<html>Bad Gateway</html>" /\
    fst (run (health Mock.bad_gateway Mock.client)) = Threw (ThrowAPI e).
Proof.
  apply (makeRequest_unparsable_error_body Mock.bad_gateway Mock.client
           GET "/health" None None start None
           (Mock.response 502 "Bad Gateway" [] 5 Mock.bad_gateway_page)
           Mock.bad_gateway_page).
  - now constructor.
  - repeat split; reflexivity.
  - reflexivity.
  - discriminate.
  - reflexivity.
Defined.

(** At the default level, a call that succeeds leaves no line. *)
Lemma makeRequest_log_threshold_witness :
  logs (trace (snd (run (health Mock.slow_body Mock.client)))) = [].
Proof.
  destruct (makeRequest_log_threshold Mock.slow_body Mock.client
              GET "/health" None None start) as (_ & _ & H).
  apply (H ltac:(discriminate) (JObj [])). reflexivity.
Defined.

(** At the default level, a connection failure leaves one line. *)
Lemma makeRequest_logs_witness :
  logs (trace (snd (run (health Mock.unreachable Mock.client))))
  = [(error, "Network error: fetch failed")].
Proof.
  destruct (makeRequest_logs Mock.unreachable Mock.client
              GET "/health" None None start) as (_ & H).
  destruct (H None (nothing_to_send _ None eq_refl)) as (_ & Hnet & _).
  refine (Hnet "TypeError" "fetch failed" _ _).
  - apply fetch_rejects; reflexivity.
  - discriminate.
Defined.

Lemma makeRequest_abort_iff_witness :
  fst (run (health Mock.stalled Mock.client))
  = Threw (ThrowAPI
      {| kind := TimeoutError; name := "VectorcacheTimeoutError";
         message := "Request timeout after 30000ms";
         status := Some 408; code := Some "TIMEOUT_ERROR";
         details := None; retryAfter := None |}).
Proof.
  destruct (makeRequest_abort_iff Mock.stalled Mock.client
              GET "/health" None None start None
              (nothing_to_send _ None eq_refl))
    as ((_ & Hin) & H & _).
  - cbn. tauto.
  - apply H, Hin. vm_compute. discriminate.
Defined.

(** After a connection failure at 5 ms, the timer set for 30000 ms is
    still pending. *)
Lemma makeRequest_timer_witness :
  timer (snd (run (health Mock.unreachable Mock.client))) = Some 30000.
Proof.
  destruct (makeRequest_timer Mock.unreachable Mock.client
              GET "/health" None None start None
              (nothing_to_send _ None eq_refl)) as (_ & H & _).
  refine (H (ThrowError "TypeError" "fetch failed") _ eq_refl).
  reflexivity.
Defined.

(** A timeout of 3000000000 ms: the server answers after a tenth of a
    second, and the call has timed out after 1 ms. *)
Lemma makeRequest_timer_clamp_witness :
  fst (run (health Mock.prompt
              {| apiKey := "test-api-key";
                 baseUrl := "https://api.test.com";
                 defaultProjectId := None;
                 timeout := 3000000000;
                 logLevel := warn |}))
  = Threw (ThrowAPI
      {| kind := TimeoutError; name := "VectorcacheTimeoutError";
         message := "Request timeout after 3000000000ms";
         status := Some 408; code := Some "TIMEOUT_ERROR";
         details := None; retryAfter := None |}) /\
  In EvAbort
    (trace (snd (run (health Mock.prompt
                        {| apiKey := "test-api-key";
                           baseUrl := "https://api.test.com";
                           defaultProjectId := None;
                           timeout := 3000000000;
                           logLevel := warn |})))) /\
  now (snd (run (health Mock.prompt
                   {| apiKey := "test-api-key";
                      baseUrl := "https://api.test.com";
                      defaultProjectId := None;
                      timeout := 3000000000;
                      logLevel := warn |})))
  = 1.
Proof.
  apply (makeRequest_timer_clamp Mock.prompt
           {| apiKey := "test-api-key";
              baseUrl := "https://api.test.com";
              defaultProjectId := None;
              timeout := 3000000000;
              logLevel := warn |}
           GET "/health" None None start None
           (nothing_to_send _ None eq_refl)).
  - right. reflexivity.
  - vm_compute. discriminate.
Defined.

(* ================================================================== *)
(** ** More on the operations *)
(* ================================================================== *)

Section OperationsMore.

Variable w : World.
Variable this : VectorcacheClient.

(** What a call of [makeRequest] throws: an instance of the error
    classes, or what the serialiser threw. *)
Lemma makeRequest_throws method endpoint body options s t :
  fst (makeRequest w this method endpoint body options s) = Threw t ->
  (exists e, t = ThrowAPI e) \/
  (exists b, body = Some b /\ truthy b = true /\
             JSON_stringify w b = Threw t).
Proof.
  intro Ht.
  destruct (request_init_ends w this method endpoint body)
    as [(b & t' & Hbody & Hb & Hs & Hthrow) | (sent & _ & Hcall)].
  - rewrite (makeRequest_unserialisable w this _ _ _ _ _ _ Hthrow) in Ht.
    injection Ht as <-. right. eauto.
  - left. exact (makeRequest_throws_typed w this _ _ _ _ _ Hcall _ _ Ht).
Qed.

(** X11. Each of [query], [testCache] and [clearCache] whose request
    can be serialised issues exactly one [fetch], whatever comes of
    it: a [POST] to its own path under the base endpoint, with the
    three standard headers and, as body, the serialised request; when
    the request value is falsy ([null], [false], 0, the empty string)
    the [POST] is sent without a body. A request the serialiser
    refuses makes each of them fail with what the serialiser threw,
    as it is, before anything is logged or sent. *)
Theorem post_operations_request (request : json) options s :
  let sent path body :=
    {| url := baseUrl this ++ path;
       method := POST;
       req_headers := standard_headers this;
       req_body := body |} in
  (forall text,
      truthy request = true -> JSON_stringify w request = Returned text ->
      fetches (trace (snd (query w this request options s)))
      = (fetches (trace s) ++ [sent "/v1/cache/query" (Some text)])%list /\
      fetches (trace (snd (testCache w this request options s)))
      = (fetches (trace s) ++ [sent "/v1/cache/test" (Some text)])%list /\
      fetches (trace (snd (clearCache w this request options s)))
      = (fetches (trace s) ++ [sent "/v1/cache/clear" (Some text)])%list) /\
  (truthy request = false ->
   fetches (trace (snd (query w this request options s)))
   = (fetches (trace s) ++ [sent "/v1/cache/query" None])%list /\
   fetches (trace (snd (testCache w this request options s)))
   = (fetches (trace s) ++ [sent "/v1/cache/test" None])%list /\
   fetches (trace (snd (clearCache w this request options s)))
   = (fetches (trace s) ++ [sent "/v1/cache/clear" None])%list) /\
  (forall t,
      truthy request = true -> JSON_stringify w request = Threw t ->
      query w this request options s = (Threw t, s) /\
      testCache w this request options s = (Threw t, s) /\
      clearCache w this request options s = (Threw t, s)).
Proof.
  cbv zeta. unfold query, testCache, clearCache. split; [|split].
  - intros text Hb Hs.
    assert (Hsent : Serialised w (Some request) (Some text))
      by now constructor.
    repeat split;
      apply (makeRequest_fetches w this _ _ _ _ _
               (request_init_serialised w this _ _ _ _ Hsent)).
  - intros Hb.
    assert (Hsent : Serialised w (Some request) None) by now constructor.
    repeat split;
      apply (makeRequest_fetches w this _ _ _ _ _
               (request_init_serialised w this _ _ _ _ Hsent)).
  - intros t Hb Hs. repeat split;
      apply makeRequest_unserialisable;
      now apply (proj1 (request_init_cases w this _ _ (Some request))
                   request t).
Qed.

(** X12. No operation sends a body with a [GET]: every [fetch] that
    [health], [getCacheStats] and [findSimilarQueries] issue is a
    [GET] without body, which carries the three standard headers all
    the same, the JSON content type included; [health] issues exactly
    one, to [/health]. *)
Theorem get_operations_request projectId query options s :
  let is_get c :=
    method c = GET /\ req_body c = None /\
    req_headers c = standard_headers this in
  fetches (trace (snd (health w this s)))
  = (fetches (trace s)
       ++ [ {| url := baseUrl this ++ "/health"; method := GET;
               req_headers := standard_headers this;
               req_body := None |} ])%list /\
  (forall c,
      In c (fetches (trace (snd (getCacheStats w this projectId options s))))
      -> In c (fetches (trace s)) \/ is_get c) /\
  (forall c,
      In c (fetches (trace (snd (findSimilarQueries w this query projectId
                                   options s))))
      -> In c (fetches (trace s)) \/ is_get c).
Proof.
  cbv zeta. split; [|split].
  - unfold health. apply makeRequest_get_fetches.
  - intros c. unfold getCacheStats. cbv zeta.
    destruct (negb (truthy (projectId
                              ||| opt_field options RequestOptions.projectId
                              ||| defaultProjectId this))).
    + now left.
    + rewrite makeRequest_get_fetches. intro Hc.
      apply in_app_or in Hc. destruct Hc as [Hc|[<-|[]]]; [now left|].
      right. repeat split.
  - intros c. unfold findSimilarQueries. cbv zeta.
    destruct (negb (truthy (projectId
                              ||| opt_field options RequestOptions.projectId
                              ||| defaultProjectId this))).
    + now left.
    + unfold bind, lift.
      destruct (encodeURIComponent w query) as [q|t]; [|now left].
      rewrite makeRequest_get_fetches. intro Hc.
      apply in_app_or in Hc. destruct Hc as [Hc|[<-|[]]]; [now left|].
      right. repeat split.
Qed.

(** X13. Whatever the platform does, each of the six operations either
    returns, or throws an instance of the SDK's error classes, or
    throws what a built-in it calls outside the [try] block threw:
    the serialiser of the request for [query], [testCache] and
    [clearCache], the encoder of the query for [findSimilarQueries].
    [getCacheStats] and [health] throw instances of the error classes
    only. *)
Theorem operations_throw_typed
    (request : json) (projectId : option string) (query_text : string)
    options s t :
  let typed := exists e, t = ThrowAPI e in
  let unserialisable :=
    truthy request = true /\ JSON_stringify w request = Threw t in
  (fst (query w this request options s) = Threw t ->
   typed \/ unserialisable) /\
  (fst (testCache w this request options s) = Threw t ->
   typed \/ unserialisable) /\
  (fst (clearCache w this request options s) = Threw t ->
   typed \/ unserialisable) /\
  (fst (getCacheStats w this projectId options s) = Threw t -> typed) /\
  (fst (findSimilarQueries w this query_text projectId options s) = Threw t ->
   typed \/ encodeURIComponent w query_text = Threw t) /\
  (fst (health w this s) = Threw t -> typed).
Proof.
  cbv zeta.
  assert (Hpost : forall path,
             fst (makeRequest w this POST path (Some request) options s)
             = Threw t ->
             (exists e, t = ThrowAPI e) \/
             truthy request = true /\ JSON_stringify w request = Threw t).
  { intros path H. apply makeRequest_throws in H.
    destruct H as [H | (b & [= <-] & Hb & Hs)]; auto. }
  assert (Hget : forall path opts,
             fst (makeRequest w this GET path None opts s) = Threw t ->
             exists e, t = ThrowAPI e).
  { intros path opts H. apply makeRequest_throws in H.
    destruct H as [H | (b & Hb & _)]; [assumption | discriminate]. }
  unfold query, testCache, clearCache, health, getCacheStats,
    findSimilarQueries. cbv zeta.
  split; [apply Hpost|]. split; [apply Hpost|]. split; [apply Hpost|].
  split; [|split; [|apply Hget]].
  - destruct (negb (truthy (projectId
                              ||| opt_field options RequestOptions.projectId
                              ||| defaultProjectId this)));
      [|apply Hget].
    intro H. change (Threw (ThrowAPI missing_id) = @Threw json t) in H.
    injection H as <-. eauto.
  - destruct (negb (truthy (projectId
                              ||| opt_field options RequestOptions.projectId
                              ||| defaultProjectId this))).
    + intro H. change (Threw (ThrowAPI missing_id) = @Threw json t) in H.
      injection H as <-. eauto.
    + unfold bind, lift.
      destruct (encodeURIComponent w query_text) as [q|t'].
      * intro H. left. now apply Hget in H.
      * intros [= <-]. now right.
Qed.

(** X14. [setDefaultProjectId] changes the default project identifier
    and nothing else: [getConfig] then reports the new identifier with
    the same base endpoint and timeout, a later update replaces an
    earlier one, and a [getCacheStats] without identifier goes to the
    new one. Setting the empty string removes the default: such a
    call then fails with [Project ID is required]. *)
Theorem setDefaultProjectId_effect (id id' : string) options s :
  let updated := setDefaultProjectId this id in
  VectorcacheConfig.projectId (getConfig updated) = Some id /\
  VectorcacheConfig.baseUrl (getConfig updated)
  = VectorcacheConfig.baseUrl (getConfig this) /\
  VectorcacheConfig.timeout (getConfig updated)
  = VectorcacheConfig.timeout (getConfig this) /\
  apiKey updated = apiKey this /\ logLevel updated = logLevel this /\
  setDefaultProjectId updated id' = setDefaultProjectId this id' /\
  (truthy (opt_field options RequestOptions.projectId) = false ->
   id <> "" ->
   exists c,
     fetches (trace (snd (getCacheStats w updated None options s)))
     = (fetches (trace s) ++ [c])%list /\
     url c = baseUrl this ++ "/v1/cache/projects/" ++ id ++ "/stats") /\
  (truthy (opt_field options RequestOptions.projectId) = false ->
   id = "" ->
   getCacheStats w updated None options s
   = (Threw (ThrowAPI missing_id), s)).
Proof.
  cbv zeta. repeat split.
  - intros Ho Hid.
    assert (Hres : None ||| opt_field options RequestOptions.projectId
                     ||| defaultProjectId (setDefaultProjectId this id)
                   = Some id).
    { change (opt_field options RequestOptions.projectId ||| Some id
              = Some id).
      unfold jsor. now rewrite Ho. }
    rewrite (getCacheStats_resolved w _ _ _ _ Hres Hid).
    eexists. split; [apply makeRequest_get_fetches | reflexivity].
  - intros Ho ->. apply getCacheStats_unresolved.
    change (truthy (opt_field options RequestOptions.projectId ||| Some "")
            = false).
    unfold jsor. now rewrite Ho.
Qed.

End OperationsMore.

(** What the constructor guarantees of the client it returns. *)
Lemma constructed_client
    (config : VectorcacheConfig.t) (s : RunState) (c : VectorcacheClient) :
  fst (new_VectorcacheClient config s) = Returned c ->
  apiKey c <> "" /\ baseUrl c <> "" /\ timeout c <> 0 /\
  (forall options, resolved_timeout c options <> 0) /\
  VectorcacheConfig.apiKey (getConfig c) = None.
Proof.
  unfold new_VectorcacheClient.
  destruct (VectorcacheConfig.apiKey config) as [key|]; [|discriminate].
  destruct (truthy key) eqn:Hk; cbn [negb]; [|discriminate].
  intros [= <-]. cbn [apiKey baseUrl timeout].
  assert (Hb : or_default (VectorcacheConfig.baseUrl config)
                 "https://api.vectorcache.com" <> "").
  { unfold or_default. destruct (VectorcacheConfig.baseUrl config) as [u|];
      [destruct (truthy u) eqn:Hu|]; try discriminate.
    now apply truthy_string_true. }
  assert (Ht : or_default (VectorcacheConfig.timeout config) 30000 <> 0).
  { unfold or_default. destruct (VectorcacheConfig.timeout config) as [t|];
      [destruct (truthy t) eqn:Hu|]; try discriminate.
    unfold truthy, Truthy_Z in Hu. apply negb_true_iff in Hu.
    now apply Z.eqb_neq. }
  repeat split; auto.
  - now apply truthy_string_true.
  - intro options. unfold resolved_timeout. cbn [timeout].
    unfold or_default at 1.
    destruct (opt_field options RequestOptions.timeout) as [t|]; [|exact Ht].
    destruct (truthy t) eqn:Hu; [|exact Ht].
    unfold truthy, Truthy_Z in Hu. apply negb_true_iff in Hu.
    now apply Z.eqb_neq.
Qed.



(** X16. A client that the constructor returned is rebuilt as it is
    from its own configuration: constructing from what [getConfig]
    reports, completed with the credential and the log level, returns
    the same client. *)
Theorem new_VectorcacheClient_getConfig
    (config : VectorcacheConfig.t) (s s' : RunState) (c : VectorcacheClient) :
  fst (new_VectorcacheClient config s) = Returned c ->
  new_VectorcacheClient (full_config c) s' = (Returned c, s').
Proof.
  intro H.
  destruct (constructed_client config s c H) as (Hk & Hb & Ht & _).
  apply truthy_string_true in Hk, Hb.
  unfold new_VectorcacheClient, full_config, getConfig.
  cbn [VectorcacheConfig.apiKey VectorcacheConfig.baseUrl
       VectorcacheConfig.projectId VectorcacheConfig.timeout
       VectorcacheConfig.logLevel].
  rewrite Hk. cbn [negb or_default]. rewrite Hb.
  unfold truthy at 1, Truthy_Z. apply Z.eqb_neq in Ht. rewrite Ht.
  cbn [negb truthy Truthy_LogLevel]. now destruct c.
Qed.

(** X17. The error for a 408 answer of the server and the error the
    client throws when its own timer fires are of the same class and
    carry the same name, status (408), code, details (none) and
    retry-after (none): only their messages can tell them apart. *)
Theorem server_408_like_client_timeout
    (w : World) (this : VectorcacheClient)
    method endpoint body options s sent
    (response : Response.t) (responseBody : option json) (text : string) :
  Serialised w body sent ->
  Response.status response = 408 ->
  ToString w (response_message response responseBody) = Returned text ->
  timer_delay (resolved_timeout this options)
    <= settles_after (fetch w (request_of this method endpoint sent)) ->
  exists e e',
    fst (makeRequest w this method endpoint body options s)
    = Threw (ThrowAPI e) /\
    createErrorFromResponse w response responseBody = Returned e' /\
    e = timeout_error (message e) /\
    e' = timeout_error (message e') /\
    message e' = text.
Proof.
  intros Hsent Hs Htext Hle.
  pose proof (request_init_serialised w this method endpoint body sent Hsent)
    as Hcall.
  assert (He' : exists e',
             createErrorFromResponse w response responseBody = Returned e' /\
             e' = timeout_error (message e') /\ message e' = text).
  { switch_on_status; try lia; built_from Htext; split; reflexivity. }
  destruct He' as (e' & He' & Hshape & Hm).
  eexists. exists e'. split; [|split; [exact He' | split; [|split]]].
  - rewrite (makeRequest_outcome w this _ _ _ _ _ Hcall). cbv zeta.
    apply Z.leb_le in Hle. rewrite Hle. reflexivity.
  - reflexivity.
  - exact Hshape.
  - exact Hm.
Qed.

(** X18. Logging only observes: two clients that differ in their log
    level alone get, from the same platform, the same outcome for the
    same request, issue the same [fetch] and take the same time. *)
Theorem makeRequest_whatever_logLevel
    (w : World) (this : VectorcacheClient) (level : LogLevel)
    method endpoint body options s :
  let r := makeRequest w this method endpoint body options s in
  let r' := makeRequest w (with_logLevel this level)
              method endpoint body options s in
  fst r' = fst r /\
  fetches (trace (snd r')) = fetches (trace (snd r)) /\
  now (snd r') = now (snd r) /\
  timer (snd r') = timer (snd r).
Proof.
  cbv zeta.
  destruct (request_init_ends w this method endpoint body)
    as [(b & t & _ & _ & _ & Hthrow) | (sent & _ & Hcall)].
  - assert (Hthrow' : request_init w (with_logLevel this level)
                        method endpoint body = Threw t) by exact Hthrow.
    rewrite (makeRequest_unserialisable w _ _ _ _ _ _ _ Hthrow),
      (makeRequest_unserialisable w _ _ _ _ _ _ _ Hthrow').
    repeat split.
  - assert (Hcall' : request_init w (with_logLevel this level)
                       method endpoint body
                     = Returned (request_of this method endpoint sent))
      by exact Hcall.
    split; [|split].
    + now rewrite (makeRequest_outcome w _ _ _ _ _ _ Hcall),
        (makeRequest_outcome w _ _ _ _ _ _ Hcall').
    + now rewrite (makeRequest_fetches w _ _ _ _ _ _ Hcall),
        (makeRequest_fetches w _ _ _ _ _ _ Hcall').
    + unfold_run. rewrite Hcall', Hcall.
      change (resolved_timeout (with_logLevel this level) options)
        with (resolved_timeout this options).
      split_run; settle_run; split; reflexivity.
Qed.

(** X19. The text of the log lines does not depend on the credential:
    with another credential, and a platform that answers the request
    in the same way, a call logs the same lines. *)
Theorem makeRequest_logs_whatever_apiKey
    (w : World) (this : VectorcacheClient) (key : string)
    method endpoint body options s :
  (forall sent,
      Serialised w body sent ->
      fetch w (request_of (with_apiKey this key) method endpoint sent)
      = fetch w (request_of this method endpoint sent)) ->
  logs (trace (snd (makeRequest w (with_apiKey this key)
                      method endpoint body options s)))
  = logs (trace (snd (makeRequest w this method endpoint body options s))).
Proof.
  intro Hfetch.
  destruct (request_init_ends w this method endpoint body)
    as [(b & t & Hbody & Hb & Hs & Hthrow) | (sent & Hsent & Hcall)].
  - assert (Hthrow' : request_init w (with_apiKey this key)
                        method endpoint body = Threw t)
      by now apply (proj1 (request_init_cases w _ method endpoint body) b t).
    now rewrite (makeRequest_unserialisable w _ _ _ _ _ _ _ Hthrow),
      (makeRequest_unserialisable w _ _ _ _ _ _ _ Hthrow').
  - pose proof (request_init_serialised w (with_apiKey this key)
                  method endpoint body sent Hsent) as Hcall'.
    unfold_run. rewrite Hcall', Hcall.
    change (resolved_timeout (with_apiKey this key) options)
      with (resolved_timeout this options).
    change (logLevel (with_apiKey this key)) with (logLevel this).
    cbn [url request_of with_apiKey baseUrl].
    rewrite (Hfetch sent Hsent).
    split_run; read_trace; reflexivity.
Qed.

(* ================================================================== *)
(** ** More runs against canned responses *)
(* ================================================================== *)

(** A query that serialises, and one that does not. *)
Lemma post_operations_request_witness :
  fetches (trace (snd (run (query Mock.prompt Mock.client
                              Mock.hello_request None))))
  = [ {| url := "https://api.test.com/v1/cache/query";
         method := POST;
         req_headers := [ ("Authorization", "Bearer test-api-key");
                          ("Content-Type", "application/json");
                          ("User-Agent", "vectorcache-js/0.1.0") ];
         req_body := Some Mock.hello_text |} ] /\
  run (query Mock.prompt Mock.client Mock.bigint_request None)
  = (Threw (ThrowError "TypeError" "Do not know how to serialize a BigInt"),
     start).
Proof.
  split.
  - destruct (post_operations_request Mock.prompt Mock.client
                Mock.hello_request None start) as (H & _).
    destruct (H Mock.hello_text eq_refl eq_refl) as (Hq & _). exact Hq.
  - destruct (post_operations_request Mock.prompt Mock.client
                Mock.bigint_request None start) as (_ & _ & H).
    destruct (H _ eq_refl eq_refl) as (Hq & _). exact Hq.
Defined.

Lemma get_operations_request_witness :
  In (request_of Mock.client GET "/v1/cache/projects/proj-1/stats" None)
     (fetches (trace (snd (run (getCacheStats Mock.empty_ok Mock.client
                                  (Some "proj-1") None))))) /\
  method (request_of Mock.client GET "/v1/cache/projects/proj-1/stats" None)
  = GET /\
  req_body (request_of Mock.client GET "/v1/cache/projects/proj-1/stats" None)
  = None.
Proof.
  assert (Hin : In (request_of Mock.client GET
                      "/v1/cache/projects/proj-1/stats" None)
                   (fetches (trace (snd (run (getCacheStats Mock.empty_ok
                                                Mock.client (Some "proj-1")
                                                None))))))
    by (left; reflexivity).
  split; [exact Hin|].
  destruct (get_operations_request Mock.empty_ok Mock.client
              (Some "proj-1") "hello" None start) as (_ & H & _).
  destruct (H _ Hin) as [[]|(Hm & Hb & _)]. now split.
Defined.

(** [findSimilarQueries] with a query that holds a surrogate on its
    own: the call fails with the encoder's [URIError]. *)
Lemma operations_throw_typed_witness :
  fst (run (findSimilarQueries Mock.prompt Mock.client Mock.lone_surrogate
              (Some "proj-1") None))
  = Threw (ThrowError "URIError" "URI malformed") /\
  ((exists e, ThrowError "URIError" "URI malformed" = ThrowAPI e) \/
   encodeURIComponent Mock.prompt Mock.lone_surrogate
   = Threw (ThrowError "URIError" "URI malformed")).
Proof.
  split; [reflexivity|].
  destruct (operations_throw_typed Mock.prompt Mock.client
              JNull (Some "proj-1") Mock.lone_surrogate None start
              (ThrowError "URIError" "URI malformed"))
    as (_ & _ & _ & _ & H & _).
  apply H. reflexivity.
Defined.

Lemma setDefaultProjectId_effect_witness :
  run (getCacheStats Mock.empty_ok (setDefaultProjectId Mock.client "")
         None None)
  = (Threw (ThrowAPI missing_id), start).
Proof.
  destruct (setDefaultProjectId_effect Mock.empty_ok Mock.client
              "" "" None start) as (_ & _ & _ & _ & _ & _ & _ & H).
  exact (H eq_refl eq_refl).
Defined.


Lemma new_VectorcacheClient_getConfig_witness :
  run (new_VectorcacheClient (full_config (with_apiKey Mock.client "test")))
  = (Returned (with_apiKey Mock.client "test"), start).
Proof.
  apply (new_VectorcacheClient_getConfig
           {| VectorcacheConfig.apiKey := Some "test";
              VectorcacheConfig.baseUrl := Some "https://api.test.com";
              VectorcacheConfig.projectId := None;
              VectorcacheConfig.timeout := Some 0;
              VectorcacheConfig.logLevel := None |}
           start start (with_apiKey Mock.client "test")).
  reflexivity.
Defined.

Lemma server_408_like_client_timeout_witness :
  exists e e',
    fst (run (health Mock.stalled Mock.client)) = Threw (ThrowAPI e) /\
    createErrorFromResponse Mock.stalled
      (Mock.response 408 "Request Timeout" [] 0 "") None
    = Returned e' /\
    e = timeout_error (message e) /\
    e' = timeout_error (message e') /\
    message e' = "Request Timeout".
Proof.
  apply (server_408_like_client_timeout Mock.stalled Mock.client
           GET "/health" None None start None
           (Mock.response 408 "Request Timeout" [] 0 "") None
           "Request Timeout").
  - now constructor.
  - reflexivity.
  - reflexivity.
  - vm_compute. discriminate.
Defined.

Lemma makeRequest_logs_whatever_apiKey_witness :
  logs (trace (snd (run (health Mock.unreachable
                           (with_apiKey Mock.client "another-key")))))
  = logs (trace (snd (run (health Mock.unreachable Mock.client)))).
Proof.
  apply (makeRequest_logs_whatever_apiKey Mock.unreachable Mock.client
           "another-key" GET "/health" None None start).
  intros sent _. reflexivity.
Defined.
